(** * Pytorch-Backprojection: the cryo-EM tutorial notebook

    A shallow embedding of [cryo-tutorial.ipynb]: the numpy helpers
    [create_radial_mask] and [load_protein], the training loop with
    [optimizer_grad_step], and the operators the notebook imports
    ([rotmat3D_EA], [ScientificImagingObservationModel]).

    numpy's float64 scalars are Rocq's primitive binary64 floats, so the
    IEEE special values (infinities, NaN) behave as they do in the notebook.
    The torch side (likelihood, rotations, phase shifts) is stated over the
    real numbers. Functions of [third_party] and of torch are parameters of
    the sections that call them.

    The embedding comes first; the facts about it follow. *)

From Stdlib Require Import String.
From Stdlib Require Import List ZArith Bool Lia.
From Stdlib Require Import Floats.
From Stdlib Require Import Reals Lra Machin.
Import ListNotations.

Set Implicit Arguments.

(** * The embedding *)

(** ** Python exceptions and results *)

Inductive exn : Type :=
| TypeError
| ValueError
| AttributeError
| OverflowError.

Inductive result (A : Type) : Type :=
| Ok (a : A)
| Raise (e : exn).

Arguments Ok {A} a.
Arguments Raise {A} e.

Definition rbind {A B : Type} (m : result A) (k : A -> result B) : result B :=
  match m with
  | Ok a => k a
  | Raise e => Raise e
  end.

Declare Scope py_scope.
Delimit Scope py_scope with py.
Notation "x <- m ;; k" := (rbind m (fun x => k))
  (at level 61, m at next level, right associativity) : py_scope.
Open Scope py_scope.

(** ** binary64 helpers *)

Module F64.

(** The integer [z] rounded to the nearest binary64 value (ties to even),
    as Python's [float(z)] and numpy's int-to-float promotion compute it. *)
Definition of_Z (z : Z) : float :=
  SF2Prim (binary_normalize prec emax z 0 false).

Definition of_nat (n : nat) : float := of_Z (Z.of_nat n).

(** The value of a finite float as [m * 2^e], or [None] for infinities
    and NaN. *)
Definition decode (f : float) : option (Z * Z) :=
  match Prim2SF f with
  | S754_zero _ => Some (0%Z, 0%Z)
  | S754_finite s m e => Some (cond_Zopp s (Zpos m), e)
  | S754_infinity _ | S754_nan => None
  end.

(** Python's [int(f)]: truncation toward zero. *)
Definition trunc (f : float) : option Z :=
  match decode f with
  | Some (m, e) =>
      Some (if (0 <=? e)%Z then (m * 2 ^ e)%Z else Z.quot m (2 ^ (- e)))
  | None => None
  end.

(** The least integer not below [f]. *)
Definition ceil (f : float) : option Z :=
  match decode f with
  | Some (m, e) =>
      Some (if (0 <=? e)%Z then (m * 2 ^ e)%Z else (- ((- m) / 2 ^ (- e)))%Z)
  | None => None
  end.

Definition of_bool (b : bool) : float := if b then 1%float else 0%float.

End F64.

(** ** Python values that reach [create_radial_mask]'s [radius] *)

Inductive pyval : Type :=
| PyNone
| PyInt (z : Z)
| PyFloat (f : float).

(** [float(v)] for a number; [None] has no float value. *)
Definition py_float (v : pyval) : result float :=
  match v with
  | PyNone => Raise TypeError
  | PyInt z =>
      let f := F64.of_Z z in
      if PrimFloat.is_infinity f then Raise OverflowError else Ok f
  | PyFloat f => Ok f
  end.

(** [v - c] with a float constant [c]: the result is a float;
    [None - 1.] is a TypeError. *)
Definition py_sub_float (v : pyval) (c : float) : result pyval :=
  f <- py_float v ;; Ok (PyFloat (f - c)%float).

(** [v < c] with a float constant [c]. *)
Definition py_lt_float (v : pyval) (c : float) : result bool :=
  f <- py_float v ;; Ok (f <? c)%float.

Definition py_is_none (v : pyval) : bool :=
  match v with
  | PyNone => true
  | _ => false
  end.

(** [v * v]: ints stay ints, floats stay floats. *)
Definition py_square (v : pyval) : result pyval :=
  match v with
  | PyNone => Raise TypeError
  | PyInt z => Ok (PyInt (z * z))
  | PyFloat f => Ok (PyFloat (f * f)%float)
  end.

(** ** numpy arrays as nested lists, with broadcasting *)

Module Np.

Definition array1 := list float.
Definition array2 := list array1.
Definition array3 := list array2.

(** One axis of a broadcast: equal lengths pair up, a length-1 axis is
    repeated along the other, anything else is numpy's
    "operands could not be broadcast together" ValueError. An array is the
    nested list of its entries, so an axis of length 0 carries no inner
    shape with it: the shapes (0, M) are all the one empty list, and a
    mismatch behind an empty axis is not seen. *)
Fixpoint zip_with {A B C : Type} (f : A -> B -> result C)
    (la : list A) (lb : list B) : result (list C) :=
  match la, lb with
  | [], [] => Ok []
  | a :: la', b :: lb' =>
      c <- f a b ;; cs <- zip_with f la' lb' ;; Ok (c :: cs)
  | _, _ => Raise ValueError
  end.

Fixpoint map_result {A C : Type} (f : A -> result C) (l : list A)
    : result (list C) :=
  match l with
  | [] => Ok []
  | a :: l' => c <- f a ;; cs <- map_result f l' ;; Ok (c :: cs)
  end.

Definition broadcast {A B C : Type} (f : A -> B -> result C)
    (la : list A) (lb : list B) : result (list C) :=
  if Nat.eqb (length la) (length lb) then zip_with f la lb
  else
    match la, lb with
    | [a], _ => map_result (fun b => f a b) lb
    | _, [b] => map_result (fun a => f a b) la
    | _, _ => Raise ValueError
    end.

Definition lift0 {A B C : Type} (f : A -> B -> C) (a : A) (b : B)
    : result C := Ok (f a b).

Definition binop1 {A B C : Type} (f : A -> B -> C) := broadcast (lift0 f).
Definition binop2 {A B C : Type} (f : A -> B -> C) := broadcast (binop1 f).
Definition binop3 {A B C : Type} (f : A -> B -> C) := broadcast (binop2 f).

Definition map2 {A B : Type} (f : A -> B) : list (list A) -> list (list B) :=
  map (map f).
Definition map3 {A B : Type} (f : A -> B)
    : list (list (list A)) -> list (list (list B)) :=
  map (map (map f)).

(** [np.zeros(shape)], [np.ones(shape)] for a two-axis shape. *)
Definition full2 (shape : nat * nat) (c : float) : array2 :=
  repeat (repeat c (snd shape)) (fst shape).
Definition zeros (shape : nat * nat) : array2 := full2 shape 0%float.
Definition ones (shape : nat * nat) : array2 := full2 shape 1%float.

(** [np.arange(start, stop)] with step 1 and float bounds:
    [ceil(stop - start)] values [start + i]. *)
Definition arange (start stop : float) : array1 :=
  match F64.ceil (stop - start)%float with
  | Some n => map (fun i => (start + F64.of_nat i)%float) (seq 0 (Z.to_nat n))
  | None => []
  end.

(** [np.ogrid[s0:e0, s1:e1]]: a column vector and a row vector. *)
Definition ogrid (s0 e0 s1 e1 : float) : array2 * array2 :=
  (map (fun v => [v]) (arange s0 e0), [arange s1 e1]).

(** The sum of all entries, accumulated left to right in binary64. numpy
    adds in pairwise blocks and in the dtype of the array: the results
    agree whenever no rounding occurs, as for the zeros and ones of a
    mask, and may differ in the last bits otherwise. *)
Definition sum1 (l : array1) : float := fold_left PrimFloat.add l 0%float.
Definition sum2 (m : array2) : float := sum1 (concat m).
Definition sum3 (v : array3) : float := sum2 (concat v).

Definition count2 (p : float -> bool) (m : array2) : nat :=
  length (filter p (concat m)).

End Np.

(** ** [create_radial_mask] *)

(** The three ways through the [if]/[elif] after [radius -= 1.]. *)
Inductive mask_branch : Type :=
| BranchNegative   (* [if radius < 0.:] *)
| BranchNone       (* [elif radius is None:] *)
| BranchFallThrough.

Definition radial_mask_branch (radius : pyval) : result mask_branch :=
  neg <- py_lt_float radius 0%float ;;
  if neg then Ok BranchNegative
  else if py_is_none radius then Ok BranchNone
  else Ok BranchFallThrough.

(** The body after the [if]/[elif], with the radius it leaves. *)
Definition radial_mask_body (shape : nat * nat) (radius : pyval)
    : result Np.array2 :=
  let N := F64.of_nat (fst shape) in
  let a := (N / 2)%float in
  let b := (N / 2)%float in
  let '(y, x) := Np.ogrid (- a) (N - a) (- b) (N - b) in
  xx <- Np.binop2 PrimFloat.mul x x ;;
  yy <- Np.binop2 PrimFloat.mul y y ;;
  d2 <- Np.binop2 PrimFloat.add xx yy ;;
  r2 <- py_square radius ;;
  r2 <- py_float r2 ;;
  let mask := Np.map2 (fun d => (d <=? r2)%float) d2 in
  m <- Np.binop2 (fun (c : bool) (o : float) => (F64.of_bool c * o)%float)
         mask (Np.ones shape) ;;
  Ok (Np.map2 (fun v => (v * 1)%float) m).

Definition create_radial_mask (shape : nat * nat) (radius : pyval)
    : result Np.array2 :=
  let N := fst shape in
  radius <- py_sub_float radius 1%float ;;
  br <- radial_mask_branch radius ;;
  match br with
  | BranchNegative => Ok (Np.map2 (fun v => (v * 1)%float) (Np.zeros shape))
  | BranchNone =>
      match F64.trunc (F64.of_nat N / 2)%float with
      | Some r => radial_mask_body shape (PyInt r)
      | None => Raise OverflowError
      end
  | BranchFallThrough => radial_mask_body shape radius
  end.

(** The call of the notebook: [create_radial_mask((D, D), int(D / 2))]. *)
Definition notebook_D : nat := 128.

Definition notebook_mask : result Np.array2 :=
  match F64.trunc (F64.of_nat notebook_D / 2)%float with
  | Some r => create_radial_mask (notebook_D, notebook_D) (PyInt r)
  | None => Raise OverflowError
  end.

(** ** [load_protein] *)

(** [M[M < 0] = 0]. *)
Definition clamp_negative (M : Np.array3) : Np.array3 :=
  Np.map3 (fun v => if (v <? 0)%float then 0%float else v) M.

(** [if total_mass is not None: M *= float(total_mass) / M.sum()].
    [M.sum()] is a numpy scalar, so the quotient is numpy's IEEE division:
    a zero sum raises nothing (numpy only warns) and gives an infinity or
    NaN. *)
Definition normalize_mass (total_mass : pyval) (M : Np.array3)
    : result Np.array3 :=
  if py_is_none total_mass then Ok M
  else
    t <- py_float total_mass ;;
    let scale := (t / Np.sum3 M)%float in
    Ok (Np.map3 (fun v => (v * scale)%float) M).

(** [premult.reshape((1, 1, -1))], [((1, -1, 1))] and [((-1, 1, 1))]. *)
Definition reshape_1_1_n (p : Np.array1) : Np.array3 := [[p]].
Definition reshape_1_n_1 (p : Np.array1) : Np.array3 := [map (fun x => [x]) p].
Definition reshape_n_1_1 (p : Np.array1) : Np.array3 := map (fun x => [[x]]) p.

Definition premult3 (premult : Np.array1) : result Np.array3 :=
  p12 <- Np.binop3 PrimFloat.mul (reshape_1_1_n premult) (reshape_1_n_1 premult) ;;
  Np.binop3 PrimFloat.mul p12 (reshape_n_1_1 premult).

(** The shape (d0, d1, d2) of a three-axis array, read off its first
    entries. *)
Definition shape3 {A : Type} (X : list (list (list A))) : nat * nat * nat :=
  (length X, length (hd [] X), length (hd [] (hd [] X))).

(** [.T] on three axes: the axes reversed, [T[k][j][i] = X[i][j][k]]. *)
Definition transpose3 {A : Type} (d : A) (X : list (list (list A)))
    : list (list (list A)) :=
  let '(d0, d1, d2) := shape3 X in
  map (fun k =>
         map (fun j =>
                map (fun i => nth k (nth j (nth i X []) []) d) (seq 0 d0))
             (seq 0 d1))
      (seq 0 d2).

Definition complex3 := list (list (list (float * float))).

(** The last two lines: real and imaginary parts, each transposed, stacked
    as the two channels of a tensor of shape (1, 2, D, D, D). *)
Definition pack_structure (structure : complex3) : list (list Np.array3) :=
  [[transpose3 nan (map (map (map fst)) structure);
    transpose3 nan (map (map (map snd)) structure)]].

Section LoadProtein.

(** The functions imported from [third_party]. [window] works in place;
    here it returns the windowed array. The voxels, float32 in the file,
    are carried at binary64: zeros, infinities and NaN behave alike. *)
Variable readMRC : String.string -> Np.array3.
Variable compute_premultiplier : nat -> String.string -> nat -> Np.array1.
Variable window : Np.array3 -> String.string -> Np.array3.
Variable real_to_fspace : Np.array3 -> complex3.

Definition load_protein (path : String.string) (total_mass : pyval) (D : nat)
    : result (list (list Np.array3)) :=
  let M := readMRC path in
  let kernel := "linear"%string in
  let ksize := 2%nat in
  let premult := compute_premultiplier D kernel ksize in
  premult <- premult3 premult ;;
  let M := window M "circle"%string in
  let M := clamp_negative M in
  M <- normalize_mass total_mass M ;;
  X <- Np.binop3 PrimFloat.mul M premult ;;
  let structure := real_to_fspace X in
  Ok (pack_structure structure).

End LoadProtein.

(** Follows the spec's words: the volume times the separable product of the
    1-D correction array [p] along each of the three axes. *)
Definition spec_premultiplied (M : Np.array3) (p : Np.array1) : Np.array3 :=
  map (fun '(Mi, pi) =>
         map (fun '(Mij, pj) =>
                map (fun '(m, pk) => (m * (pk * pj * pi))%float)
                    (combine Mij p))
             (combine Mi p))
      (combine M p).

Definition entry2 (m : Np.array2) (i j : nat) : option float :=
  match nth_error m i with
  | Some row => nth_error row j
  | None => None
  end.

Definition entry3 (M : Np.array3) (i j k : nat) : option float :=
  match nth_error M i with
  | Some Mi => entry2 Mi j k
  | None => None
  end.

(** Every axis of [M] has length [D]. *)
Definition cubic (D : nat) (M : Np.array3) : Prop :=
  length M = D
  /\ Forall (fun Mi => length Mi = D /\ Forall (fun Mij => length Mij = D) Mi) M.

(** The frequency index, centered at zero, of position [i] on an axis of
    length [D]. *)
Definition centered (D i : nat) : Z := (Z.of_nat i - Z.of_nat D / 2)%Z.

Definition in_disk (r u v : Z) : bool := (u * u + v * v <=? r * r)%Z.

(** Follows the spec's words: the [D] x [D] table that is 1 at the centered
    frequency indices [(u, v)] with [u^2 + v^2 <= r^2] and 0 elsewhere; row
    [i] holds [v = i - D/2], column [j] holds [u = j - D/2]. *)
Definition spec_disk_mask (D : nat) (r : Z) : Np.array2 :=
  map (fun i =>
         map (fun j => F64.of_bool (in_disk r (centered D j) (centered D i)))
             (seq 0 D))
      (seq 0 D).

Definition is_one (f : float) : bool := (f =? 1)%float.

(** ** Sample inputs and predicates for [load_protein] *)

(** A 2 x 2 x 2 volume of total mass 36, normalized to 72, with the
    premultiplier [0.5, 0.5]. *)
Definition demo_volume : Np.array3 :=
  [[[1; 2]; [3; 4]]; [[5; 6]; [7; 8]]]%float.

Definition demo_fft (X : Np.array3) : complex3 :=
  map (map (map (fun v => (v, 0%float)))) X.

Definition non_finite (f : float) : Prop :=
  Prim2SF f = S754_nan \/ exists s, Prim2SF f = S754_infinity s.

Definition all3 (P : float -> Prop) (M : Np.array3) : Prop :=
  Forall (Forall (Forall P)) M.

(** The notebook's [total_mass = 80000] on an all-zero 2 x 2 x 2 volume. *)
Definition zero_volume : Np.array3 :=
  [[[0; 0]; [0; 0]]; [[0; 0]; [0; 0]]]%float.

(** ** [operators.rotmat3D_EA] *)

Module Operators.
Local Open Scope R_scope.

Definition vec3 : Type := R * R * R.
(** A 3 x 3 matrix by rows. *)
Definition mat3 : Type := vec3 * vec3 * vec3.

Definition I3 : mat3 := ((1, 0, 0), (0, 1, 0), (0, 0, 1)).

Definition mmul (A B : mat3) : mat3 :=
  let '((a11, a12, a13), (a21, a22, a23), (a31, a32, a33)) := A in
  let '((b11, b12, b13), (b21, b22, b23), (b31, b32, b33)) := B in
  ((a11 * b11 + a12 * b21 + a13 * b31,
    a11 * b12 + a12 * b22 + a13 * b32,
    a11 * b13 + a12 * b23 + a13 * b33),
   (a21 * b11 + a22 * b21 + a23 * b31,
    a21 * b12 + a22 * b22 + a23 * b32,
    a21 * b13 + a22 * b23 + a23 * b33),
   (a31 * b11 + a32 * b21 + a33 * b31,
    a31 * b12 + a32 * b22 + a33 * b32,
    a31 * b13 + a32 * b23 + a33 * b33)).

Definition transpose (A : mat3) : mat3 :=
  let '((a11, a12, a13), (a21, a22, a23), (a31, a32, a33)) := A in
  ((a11, a21, a31), (a12, a22, a32), (a13, a23, a33)).

Definition det (A : mat3) : R :=
  let '((a11, a12, a13), (a21, a22, a23), (a31, a32, a33)) := A in
  a11 * (a22 * a33 - a23 * a32)
  - a12 * (a21 * a33 - a23 * a31)
  + a13 * (a21 * a32 - a22 * a31).

Inductive axis : Type := AxisX | AxisY | AxisZ.

(** The elementary rotation by the angle [t] about one coordinate axis. *)
Definition elementary (a : axis) (t : R) : mat3 :=
  match a with
  | AxisX => ((1, 0, 0), (0, cos t, - sin t), (0, sin t, cos t))
  | AxisY => ((cos t, 0, sin t), (0, 1, 0), (- sin t, 0, cos t))
  | AxisZ => ((cos t, - sin t, 0), (sin t, cos t, 0), (0, 0, 1))
  end.

(** Modelled from the spec: [operators.rotmat3D_EA], which the notebook
    imports, is not among the repository files at hand. The spec has it take
    a batch of 3-parameter angle vectors and return a batch of 3 x 3
    matrices "via a fixed composition of elementary rotations about three
    axes". The spec does not name the axes, so the convention (which axis
    each of the three angles turns about) is a parameter. *)
Definition rotmat3D_EA (convention : axis * axis * axis) (angles : list vec3)
    : list mat3 :=
  let '(x1, x2, x3) := convention in
  map (fun '(t1, t2, t3) =>
         mmul (mmul (elementary x1 t1) (elementary x2 t2)) (elementary x3 t3))
      angles.

Definition is_rotation (A : mat3) : Prop :=
  mmul A (transpose A) = I3 /\ det A = 1.

End Operators.

(** ** [observation_model.ScientificImagingObservationModel] *)

Module ObservationModel.
Local Open Scope R_scope.

(** A torch tensor by its row-major storage. *)
Definition tensor : Type := list R.

Definition complex : Type := R * R.
(** A D x D Fourier-domain slice: its complex coefficients, row by row. *)
Definition cimage : Type := list complex.

(** The (2, D, D) real tensor of a slice: the real channel, then the
    imaginary one. *)
Definition channels (img : cimage) : tensor := map fst img ++ map snd img.

Fixpoint mapi_from {A B : Type} (n : nat) (f : nat -> A -> B) (l : list A)
    : list B :=
  match l with
  | [] => []
  | a :: l' => f n a :: mapi_from (S n) f l'
  end.

Definition mapi {A B : Type} (f : nat -> A -> B) (l : list A) : list B :=
  mapi_from 0 f l.

Fixpoint map2 {A B C : Type} (f : A -> B -> C) (la : list A) (lb : list B)
    : list C :=
  match la, lb with
  | a :: la', b :: lb' => f a b :: map2 f la' lb'
  | _, _ => []
  end.

Definition tsum (t : tensor) : R := fold_right Rplus 0 t.
Definition tsum2 (ts : list tensor) : R := tsum (map tsum ts).

(** [c * exp(- i phi)]. *)
Definition cmul_phase (phi : R) (c : complex) : complex :=
  (fst c * cos phi + snd c * sin phi, snd c * cos phi - fst c * sin phi).

Definition cabs (c : complex) : R := sqrt (fst c * fst c + snd c * snd c).

(** [2 pi (u tx + v ty) / D]. *)
Definition phase (D : nat) (u v : Z) (t : R * R) : R :=
  2 * PI * (IZR u * fst t + IZR v * snd t) / INR D.

(** Modelled from the spec: the translation step of the observation model
    is not among the repository files at hand. The spec has it "multiply
    every frequency coefficient (u,v) by exp(-2 pi i (u tx + v ty)/D), where
    (u,v) range over the slice's frequency indices centered at zero".
    Coefficient [k] of the storage sits in row [k / D], column [k mod D];
    [u] is the centered column and [v] the centered row. *)
Definition TranslationPhaseShifter (D : nat) (t : R * R) (slice : cimage)
    : cimage :=
  mapi (fun k c =>
          cmul_phase (phase D (centered D (k mod D)) (centered D (k / D)) t) c)
       slice.

(** [torch.distributions.Normal] with a tensor mean per batch entry and a
    scalar standard deviation. *)
Record Normal : Type := { loc : list tensor; scale : R }.

(** [Normal.log_prob] at one entry:
    [-((x - mu)^2) / (2 sigma^2) - log sigma - log (sqrt (2 pi))]. *)
Definition normal_log_density (mu sigma x : R) : R :=
  - ((x - mu) ^ 2) / (2 * sigma ^ 2) - ln sigma - ln (sqrt (2 * PI)).

(** [d.log_prob(value)], [value] broadcast over the batch axis; the tensors
    have equal shapes, as the notebook's have. *)
Definition log_prob (d : Normal) (value : tensor) : list tensor :=
  map (fun mean => map2 (fun mu x => normal_log_density mu (scale d) x)
                        mean value)
      (loc d).

(** torch's generator: a tape of standard normal draws and a cursor. *)
Record generator : Type := { tape : nat -> R; cursor : nat }.

Definition randn (n : nat) (g : generator) : tensor * generator :=
  (map (tape g) (seq (cursor g) n),
   {| tape := tape g; cursor := (cursor g + n)%nat |}).

(** [d.sample()]: the mean plus [scale] times fresh standard normal
    draws. *)
Definition sample (d : Normal) (g : generator) : list tensor * generator :=
  fold_right
    (fun mean '(acc, g) =>
       let '(eps, g') := randn (length mean) g in
       (map2 (fun mu e => mu + scale d * e) mean eps :: acc, g'))
    ([], g) (loc d).

(** The constructor's arguments: [D], [batch_size], [std_noise]. *)
Record ScientificImagingObservationModel : Type :=
  { D : nat; batch_size : nat; std_noise : R }.

(** What the model hands back for the distribution: an object, or
    Python's [None]. Calling a method on [None] is an AttributeError. *)
Definition call_log_prob (d : option Normal) (value : tensor)
    : result (list tensor) :=
  match d with
  | Some d => Ok (log_prob d value)
  | None => Raise AttributeError
  end.

Definition call_sample (d : option Normal) (g : generator)
    : result (list tensor * generator) :=
  match d with
  | Some d => Ok (sample d g)
  | None => Raise AttributeError
  end.

Section Forward.

(** The slice extraction: the spec leaves its interpolation kernel and
    its treatment of samples outside the volume open. *)
Variable CentralSliceProjector : nat -> tensor -> Operators.mat3 -> cimage.

Definition project (m : ScientificImagingObservationModel) (volume : tensor)
    (rot : Operators.mat3) (t : R * R) : tensor :=
  channels
    (TranslationPhaseShifter (D m) t (CentralSliceProjector (D m) volume rot)).

(** Modelled from the spec: [ScientificImagingObservationModel.forward] is
    not among the repository files at hand. The spec's steps: "(a) run
    CentralSliceProjector, (b) run TranslationPhaseShifter, (c) if
    sigma > 0, construct a per-pixel independent Gaussian distribution
    with the phase-shifted slice as mean and sigma as standard deviation
    ... Returns: the noiseless projection and the distribution object (or
    none, if sigma = 0). Side effects: none". One batch entry is a volume
    with its rotation and translation. *)
Definition forward (m : ScientificImagingObservationModel)
    (batch : list (tensor * Operators.mat3 * (R * R)))
    : list tensor * option Normal :=
  let projection := map (fun '(volume, rot, t) => project m volume rot t) batch in
  let observation_dist :=
    if Rlt_dec 0 (std_noise m)
    then Some {| loc := projection; scale := std_noise m |}
    else None in
  (projection, observation_dist).

End Forward.

End ObservationModel.
(** ** The training cell of the notebook *)

Module F64R.
Local Open Scope R_scope.

(** The real value of a finite binary64 number. *)
Definition to_R (f : float) : R :=
  match F64.decode f with
  | Some (m, e) => IZR m * powerRZ 2 e
  | None => 0
  end.

End F64R.

Module Training.
Local Open Scope R_scope.

Definition tensor : Type := ObservationModel.tensor.

(** The two leaf tensors that require gradients. Their values and [.grad]
    slots are shared between the loop and the optimizers, so they live in
    one store that both read and write. *)
Inductive pname : Type := ProteinLoc | ProteinLogScale.

Record slot : Type := { value : tensor; grad : option tensor }.

Record store : Type := { protein_loc : slot; protein_log_scale : slot }.

Definition get (s : store) (p : pname) : slot :=
  match p with
  | ProteinLoc => protein_loc s
  | ProteinLogScale => protein_log_scale s
  end.

Definition set (s : store) (p : pname) (x : slot) : store :=
  match p with
  | ProteinLoc => {| protein_loc := x; protein_log_scale := protein_log_scale s |}
  | ProteinLogScale => {| protein_loc := protein_loc s; protein_log_scale := x |}
  end.

(** The steps of an iteration, in the order they happen. *)
Inductive event : Type :=
| EvSample            (* [protein_dist.rsample((1,))] *)
| EvObserve           (* [observation_model(protein_sample, R, t)] *)
| EvLoss              (* the scalar [loss] *)
| EvBackward          (* [loss.backward()] *)
| EvStep (k : nat)    (* [opt.step()] of the k-th optimizer *)
| EvZeroGrad (k : nat). (* [opt.zero_grad()] of the k-th optimizer *)

(** [Normal(loc, scale).rsample] on the draws [eps]: [loc + eps * scale]. *)
Definition rsample_value (loc scale eps : tensor) : tensor :=
  ObservationModel.map2 Rplus loc (ObservationModel.map2 Rmult eps scale).

(** The argument check of [distributions.Normal]: every entry of [scale]
    has to be greater than 0. *)
Definition is_positive (x : R) : bool :=
  if Rlt_dec 0 x then true else false.

(** [distributions.Normal(loc=loc, scale=scale)]: a ValueError when the
    check of [scale] fails. *)
Definition Normal_init (loc scale : tensor) : result (tensor * tensor) :=
  if forallb is_positive scale then Ok (loc, scale) else Raise ValueError.

(** [g0 + g] into a [.grad] slot; an empty slot takes [g]. *)
Definition accumulated (g0 : option tensor) (g : tensor) : tensor :=
  match g0 with
  | None => g
  | Some g0 => ObservationModel.map2 Rplus g0 g
  end.

Definition accumulate (g0 : option tensor) (g : tensor) : option tensor :=
  Some (accumulated g0 g).

Section Loop.

(** torch's side: Adam's update rule with its running moments, and
    reverse-mode differentiation of a scalar function of one tensor. *)
Variable opt_state : Type.

Record Adam : Type :=
  { params : list pname; lr : R; betas : R * R; state : opt_state }.

Variable adam_update : Adam -> tensor -> tensor -> tensor * opt_state.
Variable gradient : (tensor -> R) -> tensor -> tensor.
(** [F.softplus] on the entries of a float32 tensor. It follows
    [log (1 + exp x)] up to rounding, and rounding takes it to 0 once
    [exp x] underflows: nothing is assumed of its sign. *)
Variable softplus : R -> R.

(** The notebook's globals the loop reads: the imported [rotmat3D_EA], and
    the observation model as the callable it is,
    [observation_model(protein_sample, R, t)] returning the projection and
    the distribution object or [None]. *)
Variable rotmat3D_EA : list Operators.vec3 -> list Operators.mat3.
Variable observation_model
  : tensor -> list Operators.mat3 -> R * R ->
    list tensor * option ObservationModel.Normal.
Variable D : nat.
Variable dataset : list (tensor * Operators.vec3 * (R * R)).
Variable num_pixels : R.
(** numpy's generator: [random.randint(0, n)] for a positive [n], called at
    a position of the generator's stream, gives a value and the position
    after the call. How many raw draws a call takes is numpy's own affair
    (none at all for [n = 1]). *)
Variable numpy_randint : nat -> nat -> nat * nat.

Record world : Type :=
  { st : store;
    optimizer : list Adam;
    torch_gen : ObservationModel.generator;
    numpy_cursor : nat;
    error : R;
    trace : list event }.

(** State and exceptions: a raise keeps the state reached so far. *)
Definition M (A : Type) : Type := world -> result A * world.

Definition ret {A : Type} (a : A) : M A := fun w => (Ok a, w).

Definition bind {A B : Type} (m : M A) (k : A -> M B) : M B :=
  fun w =>
    match m w with
    | (Ok a, w') => k a w'
    | (Raise e, w') => (Raise e, w')
    end.

Definition lift {A : Type} (r : result A) : M A := fun w => (r, w).

Definition emit (e : event) : M unit :=
  fun w =>
    (Ok tt,
     {| st := st w; optimizer := optimizer w; torch_gen := torch_gen w;
        numpy_cursor := numpy_cursor w; error := error w;
        trace := trace w ++ [e] |}).

Definition with_store (f : store -> store) : M unit :=
  fun w =>
    (Ok tt,
     {| st := f (st w); optimizer := optimizer w; torch_gen := torch_gen w;
        numpy_cursor := numpy_cursor w; error := error w;
        trace := trace w |}).

Declare Scope loop_scope.
Delimit Scope loop_scope with loop.
Notation "x <- m ;; k" := (bind m (fun x => k))
  (at level 61, m at next level, right associativity) : loop_scope.
Notation "m ;;; k" := (bind m (fun _ => k))
  (at level 61, right associativity) : loop_scope.
Local Open Scope loop_scope.

(** [random.randint(0, n)]: a ValueError when the range is empty, and a
    value below [n] otherwise. *)
Definition randint (n : nat) : M nat :=
  fun w =>
    if Nat.eqb n 0 then (Raise ValueError, w)
    else
      (Ok (fst (numpy_randint n (numpy_cursor w)) mod n)%nat,
       {| st := st w; optimizer := optimizer w; torch_gen := torch_gen w;
          numpy_cursor := snd (numpy_randint n (numpy_cursor w));
          error := error w; trace := trace w |}).

(** Line 251: the posterior
    [distributions.Normal(loc=protein_loc, scale=F.softplus(protein_log_scale))],
    by its mean and scale. *)
Definition protein_dist : M (tensor * tensor) :=
  fun w =>
    (Normal_init (value (protein_loc (st w)))
                 (map softplus (value (protein_log_scale (st w)))),
     w).

(** Line 252: [protein_dist.rsample((1,))], fresh draws, one per voxel. The
    sample comes back with the draws it was made from. *)
Definition rsample (dist : tensor * tensor) : M (tensor * tensor) :=
  fun w =>
    let '(eps, g) :=
      ObservationModel.randn (length (fst dist)) (torch_gen w) in
    (Ok (rsample_value (fst dist) (snd dist) eps, eps),
     {| st := st w; optimizer := optimizer w; torch_gen := g;
        numpy_cursor := numpy_cursor w; error := error w;
        trace := trace w ++ [EvSample] |}).

(** Lines 254 to 257: the pose of the datum and the model's call. *)
Definition observe (protein_sample : tensor)
    (datum : tensor * Operators.vec3 * (R * R))
    : list tensor * option ObservationModel.Normal :=
  let '(_, (a1, a2, a3), (tx, ty)) := datum in
  let t := (tx / INR D, ty / INR D) in
  let R := rotmat3D_EA [(a1 / 180 * PI, a2 / 180 * PI, a3 / 180 * PI)] in
  observation_model protein_sample R t.

(** Lines 259 and 260:
    [-(observation_dist.log_prob(observation).sum() / num_pixels)]. *)
Definition loss_value (observation_dist : option ObservationModel.Normal)
    (observation : tensor) : result R :=
  (lp <- ObservationModel.call_log_prob observation_dist observation ;;
   let conditional_loglikelihood := ObservationModel.tsum2 lp / num_pixels in
   Ok (- conditional_loglikelihood))%py.

(** The loss as a function of the two parameter tensors, the draws and
    the datum fixed: what [backward] differentiates. *)
Definition loss_fn (eps : tensor) (datum : tensor * Operators.vec3 * (R * R))
    (loc log_scale : tensor) : R :=
  match loss_value
          (snd (observe (rsample_value loc (map softplus log_scale) eps)
                        datum))
          (fst (fst datum)) with
  | Ok l => l
  | Raise _ => 0
  end.

(** [loss.backward()]: the gradient with respect to each leaf is added
    into its [.grad]. *)
Definition backward (L : tensor -> tensor -> R) : M unit :=
  with_store
    (fun s =>
       let loc := value (protein_loc s) in
       let log_scale := value (protein_log_scale s) in
       {| protein_loc :=
            {| value := loc;
               grad := accumulate (grad (protein_loc s))
                         (gradient (fun x => L x log_scale) loc) |};
          protein_log_scale :=
            {| value := log_scale;
               grad := accumulate (grad (protein_log_scale s))
                         (gradient (fun x => L loc x) log_scale) |} |})
  ;;; emit EvBackward.

(** [opt.step()]: every parameter of [opt] that has a gradient is
    updated; one without is skipped. *)
Fixpoint step_params (opt : Adam) (ps : list pname) (s : store)
    : Adam * store :=
  match ps with
  | [] => (opt, s)
  | p :: ps' =>
      match grad (get s p) with
      | None => step_params opt ps' s
      | Some g =>
          let '(v, os) := adam_update opt (value (get s p)) g in
          step_params
            {| params := params opt; lr := lr opt; betas := betas opt;
               state := os |}
            ps'
            (set s p {| value := v; grad := Some g |})
      end
  end.

Definition step (opt : Adam) (s : store) : Adam * store :=
  step_params opt (params opt) s.

(** [opt.zero_grad()]: the [.grad] of every parameter of [opt] is
    cleared. *)
Definition zero_grad (opt : Adam) (s : store) : store :=
  fold_left (fun s p => set s p {| value := value (get s p); grad := None |})
            (params opt) s.

(** [for opt in optimizer: opt.step(); opt.zero_grad()]. *)
Fixpoint optimizer_loop (k : nat) (opts : list Adam) (s : store)
    (tr : list event) : list Adam * store * list event :=
  match opts with
  | [] => ([], s, tr)
  | opt :: rest =>
      let '(opt', s1) := step opt s in
      let s2 := zero_grad opt' s1 in
      let '(rest', s3, tr') :=
        optimizer_loop (S k) rest s2 (tr ++ [EvStep k; EvZeroGrad k]) in
      (opt' :: rest', s3, tr')
  end.

Definition optimizer_grad_step : M unit :=
  fun w =>
    let '(opts, s, tr) := optimizer_loop 0 (optimizer w) (st w) (trace w) in
    (Ok tt,
     {| st := s; optimizer := opts; torch_gen := torch_gen w;
        numpy_cursor := numpy_cursor w; error := error w; trace := tr |}).

Definition add_error (loss : R) : M unit :=
  fun w =>
    (Ok tt,
     {| st := st w; optimizer := optimizer w; torch_gen := torch_gen w;
        numpy_cursor := numpy_cursor w; error := error w + loss;
        trace := trace w |}).

Definition default_datum : tensor * Operators.vec3 * (R * R) :=
  ([], (0, 0, 0), (0, 0)).

(** The body of [for iteration in range(num_iterations)]. *)
Definition training_iteration : M unit :=
  idx <- randint (length dataset) ;;
  dist <- protein_dist ;;
  drawn <- rsample dist ;;
  let '(protein_sample, eps) := drawn in
  let datum := nth idx dataset default_datum in
  out <- (emit EvObserve ;;; ret (observe protein_sample datum)) ;;
  let '(projection, observation_dist) := out in
  loss <- lift (loss_value observation_dist (fst (fst datum))) ;;
  emit EvLoss ;;;
  backward (loss_fn eps datum) ;;;
  optimizer_grad_step ;;;
  add_error loss.

(** [for iteration in range(n)]: the iterations one after the other; an
    exception ends the loop. *)
Fixpoint training_loop (n : nat) : M unit :=
  match n with
  | O => ret tt
  | S n' => training_iteration ;;; training_loop n'
  end.

(** The model hands back a distribution object on every call. *)
Definition returns_distribution : Prop :=
  forall sample rotation t,
    exists d, snd (observation_model sample rotation t) = Some d.

(** The model hands back [None] on every call. *)
Definition returns_none : Prop :=
  forall sample rotation t, snd (observation_model sample rotation t) = None.

Definition grads_cleared (s : store) : Prop :=
  grad (protein_loc s) = None /\ grad (protein_log_scale s) = None.

(** The optimizers of the notebook: one Adam per parameter. *)
Definition notebook_optimizers (opts : list Adam) : Prop :=
  map params opts = [[ProteinLoc]; [ProteinLogScale]].

Definition iteration_events : list event :=
  [EvSample; EvObserve; EvLoss; EvBackward;
   EvStep 0; EvZeroGrad 0; EvStep 1; EvZeroGrad 1].

(** Every entry of the posterior's scale passes the check of
    [distributions.Normal]. *)
Definition scale_positive (s : store) : Prop :=
  forallb is_positive (map softplus (value (protein_log_scale s))) = true.

(** The five steps the spec gives for an iteration, as one function on the
    state, for the two optimizers of the notebook: "(1) sample latent
    volume, (2) run ObservationModel, (3) compute scalar loss, (4)
    propagate gradients, (5) apply parameter update and clear accumulated
    gradients". The gradients of step (4) are those of this iteration's
    loss alone, taken at the parameters the iteration began with; step (5)
    hands each to the optimizer of its parameter and leaves both [.grad]
    slots empty. *)
Definition spec_iteration (w : world) : world :=
  match optimizer w with
  | [o1; o2] =>
      let loc := value (protein_loc (st w)) in
      let log_scale := value (protein_log_scale (st w)) in
      let n := length dataset in
      let idx := (fst (numpy_randint n (numpy_cursor w)) mod n)%nat in
      let datum := nth idx dataset default_datum in
      let eps :=
        fst (ObservationModel.randn (length loc) (torch_gen w)) in
      let loss := loss_fn eps datum loc log_scale in
      let g_loc := gradient (fun x => loss_fn eps datum x log_scale) loc in
      let g_log_scale :=
        gradient (fun x => loss_fn eps datum loc x) log_scale in
      {| st :=
           {| protein_loc :=
                {| value := fst (adam_update o1 loc g_loc); grad := None |};
              protein_log_scale :=
                {| value := fst (adam_update o2 log_scale g_log_scale);
                   grad := None |} |};
         optimizer :=
           [{| params := params o1; lr := lr o1; betas := betas o1;
               state := snd (adam_update o1 loc g_loc) |};
            {| params := params o2; lr := lr o2; betas := betas o2;
               state := snd (adam_update o2 log_scale g_log_scale) |}];
         torch_gen :=
           snd (ObservationModel.randn (length loc) (torch_gen w));
         numpy_cursor := snd (numpy_randint n (numpy_cursor w));
         error := error w + loss;
         trace := trace w ++ iteration_events |}
  | _ => w
  end.

End Loop.

End Training.

(** ** The notebook's globals and sample inputs *)

Module Notebook.
Local Open Scope R_scope.

(** [num_pixels = mask.sum()] for the mask of the training cell. *)
Definition num_pixels : result R :=
  (m <- notebook_mask ;; Ok (F64R.to_R (Np.sum2 m)))%py.

(** Observations of shape (2, 128, 128) that differ only in the real part
    of the coefficient at row 0, column 0: the corner of the grid, at the
    centered frequency (-64, -64). *)
Definition rest : nat := (2 * 128 * 128 - 1)%nat.

Definition observation_zero : ObservationModel.tensor := 0 :: repeat 0 rest.
Definition observation_corner : ObservationModel.tensor := 1 :: repeat 0 rest.

Definition unit_normal : ObservationModel.Normal :=
  {| ObservationModel.loc := [0 :: repeat 0 rest];
     ObservationModel.scale := 1 |}.

(** A one-voxel setting for the loop: a projector that returns the
    volume's first entry as the zero-frequency coefficient, a plain
    gradient step in place of Adam's rule, and all-ones gradients. *)
Definition demo_projector (d : nat) (volume : ObservationModel.tensor)
    (rot : Operators.mat3) : ObservationModel.cimage :=
  [(hd 0 volume, 0)].

Definition demo_model (sigma : R)
    : ObservationModel.ScientificImagingObservationModel :=
  {| ObservationModel.D := 1;
     ObservationModel.batch_size := 1;
     ObservationModel.std_noise := sigma |}.

Definition demo_batch
    : list (ObservationModel.tensor * Operators.mat3 * (R * R)) :=
  [([1], Operators.I3, (0, 0))].

(** The model of the notebook as a callable: one volume, projected under
    every rotation of the batch with the one translation. *)
Definition call_model
    (projector : nat -> ObservationModel.tensor -> Operators.mat3 ->
                 ObservationModel.cimage)
    (m : ObservationModel.ScientificImagingObservationModel)
    (volume : ObservationModel.tensor) (rotation : list Operators.mat3)
    (t : R * R)
    : list ObservationModel.tensor * option ObservationModel.Normal :=
  ObservationModel.forward projector m
    (map (fun Rk => (volume, Rk, t)) rotation).

(** softplus without rounding (beta 1, threshold 20), and one that is 0
    from -104 down, where [exp x] is below half the least positive binary32
    number. *)
Definition exact_softplus (x : R) : R :=
  if Rlt_dec 20 x then x else ln (1 + exp x).

Definition flushed_softplus (x : R) : R :=
  if Rle_dec x (-104) then 0 else exact_softplus x.

(** A generator of numpy that always gives 0 and moves one position. *)
Definition demo_randint (n position : nat) : nat * nat :=
  (0%nat, S position).

Definition demo_generator : ObservationModel.generator :=
  {| ObservationModel.tape := fun _ => 0; ObservationModel.cursor := 0 |}.

Definition demo_adam_update (opt : Training.Adam unit)
    (v g : ObservationModel.tensor) : ObservationModel.tensor * unit :=
  (ObservationModel.map2 Rminus v g, tt).

Definition demo_gradient (f : ObservationModel.tensor -> R)
    (x : ObservationModel.tensor) : ObservationModel.tensor :=
  map (fun _ => 1) x.

Definition demo_dataset
    : list (ObservationModel.tensor * Operators.vec3 * (R * R)) :=
  [([0; 0], (0, 0, 0), (0, 0))].

Definition demo_world : Training.world unit :=
  {| Training.st :=
       {| Training.protein_loc :=
            {| Training.value := [0]; Training.grad := None |};
          Training.protein_log_scale :=
            {| Training.value := [-100]; Training.grad := None |} |};
     Training.optimizer :=
       [{| Training.params := [Training.ProteinLoc];
           Training.lr := 1 / 10; Training.betas := (8 / 10, 999 / 1000);
           Training.state := tt |};
        {| Training.params := [Training.ProteinLogScale];
           Training.lr := 1 / 100; Training.betas := (8 / 10, 999 / 1000);
           Training.state := tt |}];
     Training.torch_gen := demo_generator;
     Training.numpy_cursor := 0;
     Training.error := 0;
     Training.trace := [] |}.

End Notebook.
(** ** Reference tables for [create_radial_mask] on small shapes *)

(** Twice the coordinate [i - N / 2] that [np.ogrid] gives position [i] of
    an axis of length [N]; an integer also when [N] is odd. *)
Definition doubled (N i : nat) : Z := (2 * Z.of_nat i - Z.of_nat N)%Z.

(** The [N] x [N] table that is 1 where the point [(j - N/2, i - N/2)] lies
    within distance [r] of the origin, and 0 elsewhere. *)
Definition lattice_disk_mask (N : nat) (r : Z) : Np.array2 :=
  map (fun i =>
         map (fun j =>
                F64.of_bool
                  (doubled N j * doubled N j + doubled N i * doubled N i
                   <=? 4 * (r * r))%Z)
             (seq 0 N))
      (seq 0 N).

(** What a call with shape [(N, M)] and an integer radius argument comes to:
    zeros of the shape for an argument below 1; otherwise the disk of
    radius [radius - 1] on the [N] x [N] grid, which numpy's broadcasting
    against [np.ones((N, M))] keeps when [M] is [N] or 1, spreads over [M]
    columns when [N] is 1, and rejects for any other [M]. *)
Definition radial_mask_outcome (N M : nat) (radius : Z) : result Np.array2 :=
  if (radius <? 1)%Z then Ok (Np.zeros (N, M))
  else
    match N with
    | 0%nat => Ok []
    | 1%nat =>
        Ok [repeat (nth 0 (nth 0 (lattice_disk_mask 1 (radius - 1)) []) nan) M]
    | _ =>
        if Nat.eqb M N || Nat.eqb M 1
        then Ok (lattice_disk_mask N (radius - 1))
        else Raise ValueError
    end.

Fixpoint list_eqb {A : Type} (eqb : A -> A -> bool) (l l' : list A) : bool :=
  match l, l' with
  | [], [] => true
  | a :: l, a' :: l' => eqb a a' && list_eqb eqb l l'
  | _, _ => false
  end.

Definition exn_eqb (e e' : exn) : bool :=
  match e, e' with
  | TypeError, TypeError | ValueError, ValueError
  | AttributeError, AttributeError | OverflowError, OverflowError => true
  | _, _ => false
  end.

Definition mask_result_eqb (r r' : result Np.array2) : bool :=
  match r, r' with
  | Ok m, Ok m' => list_eqb (list_eqb PrimFloat.Leibniz.eqb) m m'
  | Raise e, Raise e' => exn_eqb e e'
  | _, _ => false
  end.

(** The sides and radius arguments the tables below run over. *)
Definition small_sides : list nat := seq 0 13.
Definition small_radii : list Z := map (fun r => (Z.of_nat r - 2)%Z) (seq 0 13).

Definition radial_mask_agrees (N M : nat) (radius : Z) : bool :=
  mask_result_eqb (create_radial_mask (N, M) (PyInt radius))
                  (radial_mask_outcome N M radius).

(** ** More sample inputs *)

Module Samples.
Local Open Scope R_scope.

(** A world whose only optimizer owns [protein_loc], while
    [protein_log_scale] holds a gradient. *)
Definition one_optimizer_world : Training.world unit :=
  {| Training.st :=
       {| Training.protein_loc :=
            {| Training.value := [0]; Training.grad := Some [1] |};
          Training.protein_log_scale :=
            {| Training.value := [-100]; Training.grad := Some [5] |} |};
     Training.optimizer :=
       [{| Training.params := [Training.ProteinLoc];
           Training.lr := 1 / 10; Training.betas := (8 / 10, 999 / 1000);
           Training.state := tt |}];
     Training.torch_gen := Notebook.demo_generator;
     Training.numpy_cursor := 0;
     Training.error := 0;
     Training.trace := [] |}.

(** The notebook's world with a log-scale far below where binary32's
    softplus has underflowed. *)
Definition underflow_world : Training.world unit :=
  {| Training.st :=
       {| Training.protein_loc :=
            {| Training.value := [0]; Training.grad := None |};
          Training.protein_log_scale :=
            {| Training.value := [-200]; Training.grad := None |} |};
     Training.optimizer := Training.optimizer Notebook.demo_world;
     Training.torch_gen := Notebook.demo_generator;
     Training.numpy_cursor := 0;
     Training.error := 0;
     Training.trace := [] |}.

(** The notebook's world with a gradient left in the slot of
    [protein_loc]. *)
Definition pending_world : Training.world unit :=
  {| Training.st :=
       {| Training.protein_loc :=
            {| Training.value := [0]; Training.grad := Some [2] |};
          Training.protein_log_scale :=
            {| Training.value := [-100]; Training.grad := None |} |};
     Training.optimizer := Training.optimizer Notebook.demo_world;
     Training.torch_gen := Notebook.demo_generator;
     Training.numpy_cursor := 0;
     Training.error := 0;
     Training.trace := [] |}.

End Samples.

(** ** [load_dataset] *)

Module F32.

(** A binary64 value rounded to the nearest binary32 value (ties to even,
    overflow to infinity), as [torch.Tensor(...)] stores a float64 array. *)
Definition round (f : float) : float :=
  match Prim2SF f with
  | S754_finite s m e => SF2Prim (binary_round 24 128 s m e)
  | _ => f
  end.

End F32.

Module Dataset.

(** The exceptions [load_dataset] can end in: a key the pickled dict lacks,
    a row index past the end of a metadata array, numpy's refusal to stack
    (no array at all, or arrays of different shapes), and a failure to open
    or unpickle the metadata file. *)
Inductive error : Type :=
| KeyError (key : String.string)
| IndexError
| StackError
| PickleError.

Definition res (A : Type) : Type := (error + A)%type.

Definition bind {A B : Type} (m : res A) (k : A -> res B) : res B :=
  match m with
  | inr a => k a
  | inl e => inl e
  end.

Declare Scope dataset_scope.
Delimit Scope dataset_scope with dataset.
Notation "x <- m ;; k" := (bind m (fun x => k))
  (at level 61, m at next level, right associativity) : dataset_scope.
Local Open Scope dataset_scope.

(** [s.replace(old, new)] for a non-empty [old]: the occurrences of [old]
    are replaced from the left, without overlap. [skip] counts the
    characters of a matched occurrence still to pass over. *)
Fixpoint replace_from (old new : String.string) (skip : nat)
    (s : String.string) : String.string :=
  match s with
  | EmptyString => EmptyString
  | String c s' =>
      match skip with
      | S k => replace_from old new k s'
      | O =>
          if String.prefix old s
          then String.append new
                 (replace_from old new (String.length old - 1) s')
          else String c (replace_from old new 0 s')
      end
  end.

(** [path.replace('imgdata.mrc', 'pardata.pkl')]. *)
Definition pickle_path (path : String.string) : String.string :=
  replace_from "imgdata.mrc" "pardata.pkl" 0 path.

(** No occurrence of [old] starts at a position of [s]. *)
Fixpoint absent (old s : String.string) : bool :=
  match s with
  | EmptyString => true
  | String _ s' => negb (String.prefix old s) && absent old s'
  end.

(** No occurrence of [old] starts inside [dir] when [tail] follows it. *)
Fixpoint absent_before (old dir tail : String.string) : bool :=
  match dir with
  | EmptyString => true
  | String _ dir' =>
      negb (String.prefix old (String.append dir tail))
      && absent_before old dir' tail
  end.

(** The pickled dict: its keys with the arrays they hold, row by row. *)
Definition pardata : Type := list (String.string * Np.array2).

(** [pardata[key]]. *)
Fixpoint lookup (key : String.string) (d : pardata) : res Np.array2 :=
  match d with
  | [] => inl (KeyError key)
  | (k, v) :: d' => if String.eqb k key then inr v else lookup key d'
  end.

(** [a[index]] for an index that [enumerate] produced. *)
Definition row {A : Type} (a : list A) (index : nat) : res A :=
  match nth_error a index with
  | Some r => inr r
  | None => inl IndexError
  end.

Definition shape2 {A : Type} (m : list (list A)) : nat * nat :=
  (length m, length (hd [] m)).

Definition shape2_eqb (s s' : nat * nat) : bool :=
  Nat.eqb (fst s) (fst s') && Nat.eqb (snd s) (snd s').

Definition shape3_eqb (s s' : nat * nat * nat) : bool :=
  shape2_eqb (fst s) (fst s') && Nat.eqb (snd s) (snd s').

(** [np.stack(arrays)]: at least one array, all of one shape. *)
Definition stack {A S : Type} (shape : A -> S) (eqb : S -> S -> bool)
    (arrays : list A) : res (list A) :=
  match arrays with
  | [] => inl StackError
  | a :: rest =>
      if forallb (fun b => eqb (shape a) (shape b)) rest
      then inr arrays
      else inl StackError
  end.

(** [np.transpose(images, axes=[2, 0, 1])]: image [k] holds
    [images[i][j][k]] at row [i], column [j]. The shape is read off the
    first entries of the nested list. *)
Definition transpose_201 (M : Np.array3) : list Np.array2 :=
  let '(d0, d1, d2) := shape3 M in
  map (fun k =>
         map (fun i => map (fun j => nth k (nth j (nth i M []) []) nan)
                           (seq 0 d1))
             (seq 0 d0))
      (seq 0 d2).

Section LoadDataset.

(** [readMRC] and [real_to_fspace] of [third_party]; [open] followed by
    [pickle.load], which may fail. *)
Variable readMRC : String.string -> Np.array3.
Variable read_pickle : String.string -> res pardata.
Variable real_to_fspace : Np.array2 -> list (list (float * float)).

(** [np.vstack([img_real, img_imag])] of the transformed image: the two
    channels of shape (2, H, W). *)
Definition observation (img : Np.array2) : Np.array3 :=
  let f := real_to_fspace img in
  let img_real := [map (map fst) f] in
  let img_imag := [map (map snd) f] in
  img_real ++ img_imag.

(** The [for index, img in enumerate(images)] loop from [index] on: the
    three lists it appends to, or the first exception. *)
Fixpoint collect (index : nat) (images : list Np.array2) (d : pardata)
    : res (list Np.array3 * list Np.array2 * list Np.array2) :=
  match images with
  | [] => inr ([], [], [])
  | img :: rest =>
      let obs := observation img in
      ea <- lookup "EA" d ;;
      ea_row <- row ea index ;;
      t <- lookup "t" d ;;
      t_row <- row t index ;;
      tail <- collect (S index) rest d ;;
      let '(observations, rotation_representations, translations) := tail in
      inr (obs :: observations,
           [ea_row] :: rotation_representations,
           [t_row] :: translations)
  end.

Definition to_tensor3 (a : list Np.array3) : list Np.array3 :=
  map (Np.map3 F32.round) a.

Definition to_tensor2 (a : list Np.array2) : list Np.array2 :=
  map (Np.map2 F32.round) a.

Definition load_dataset (path : String.string)
    : res (list Np.array3 * list Np.array2 * list Np.array2) :=
  let images := readMRC path in
  let images := transpose_201 images in
  d <- read_pickle (pickle_path path) ;;
  lists <- collect 0 images d ;;
  let '(observations, rotation_representations, translations) := lists in
  observations <- stack shape3 shape3_eqb observations ;;
  rotation_representations <-
    stack shape2 shape2_eqb rotation_representations ;;
  translations <- stack shape2 shape2_eqb translations ;;
  inr (to_tensor3 observations, to_tensor2 rotation_representations,
       to_tensor2 translations).

End LoadDataset.

(** All arrays of a list have the shape of the first. *)
Definition uniform {A S : Type} (shape : A -> S) (eqb : S -> S -> bool)
    (arrays : list A) : bool :=
  match arrays with
  | [] => true
  | a :: rest => forallb (fun b => eqb (shape a) (shape b)) rest
  end.

(** A three-image stack of 1 x 2 images with its metadata. *)
Definition demo_stack : Np.array3 := [[[1; 2; 3]; [4; 5; 6]]]%float.

Definition demo_pardata : pardata :=
  [("EA"%string, [[10; 20; 30]; [40; 50; 60]; [70; 80; 90]; [0; 0; 0]]%float);
   ("t"%string, [[0.5; 1.5]; [2.5; 3.5]; [4.5; 5.5]]%float)].

Definition demo_fft2 (img : Np.array2) : list (list (float * float)) :=
  map (map (fun v => (v, 0%float))) img.

End Dataset.

(** * Facts about the radial mask *)

Lemma nth_error_map_seq {A : Type} (f : nat -> A) (n i : nat) :
  (i < n)%nat -> nth_error (map f (seq 0 n)) i = Some (f i).
Proof.
  intros Hi.
  rewrite nth_error_map, nth_error_seq.
  destruct (Nat.ltb_spec i n) as [_ | Hge]; [reflexivity | lia].
Qed.

Lemma spec_disk_mask_entry (D : nat) (r : Z) (i j : nat) :
  (i < D)%nat -> (j < D)%nat ->
  entry2 (spec_disk_mask D r) i j
  = Some (F64.of_bool (in_disk r (centered D j) (centered D i))).
Proof.
  intros Hi Hj. unfold entry2, spec_disk_mask.
  rewrite (nth_error_map_seq _ Hi).
  exact (nth_error_map_seq
           (fun j => F64.of_bool (in_disk r (centered D j) (centered D i))) Hj).
Qed.

Lemma PI_upper : (PI < 3141593 / 1000000)%R.
Proof.
  pose proof (PI_2_3_7_ineq 3) as [_ H].
  unfold sum_f_R0, tg_alt, PI_2_3_7_tg, Ratan_seq in H.
  simpl in H. lra.
Qed.

Lemma PI_lower : (3141592 / 1000000 < PI)%R.
Proof.
  pose proof (PI_2_3_7_ineq 3) as [H _].
  unfold sum_f_R0, tg_alt, PI_2_3_7_tg, Ratan_seq in H.
  simpl in H. lra.
Qed.

(** C1. For shape (128, 128) and radius argument 64, [create_radial_mask]
    returns the 128 x 128 table that is 1 exactly at the centered frequency
    indices (u, v) with u^2 + v^2 <= 63^2 and 0 at every other entry; it has
    12453 entries equal to 1, which is within 16 (0.13 percent) of the area
    pi * 63^2 of that disk. *)
Theorem create_radial_mask_128_disk :
  create_radial_mask (128, 128)%nat (PyInt 64) = Ok (spec_disk_mask 128 63)
  /\ (forall u v : Z,
        (-64 <= u < 64)%Z -> (-64 <= v < 64)%Z ->
        entry2 (spec_disk_mask 128 63) (Z.to_nat (v + 64)) (Z.to_nat (u + 64))
        = Some (if (u * u + v * v <=? 63 * 63)%Z then 1%float else 0%float))
  /\ Z.of_nat (Np.count2 is_one (spec_disk_mask 128 63)) = 12453%Z
  /\ (Rabs (12453 - PI * 63 ^ 2) < 16)%R.
Proof.
  split; [vm_compute; reflexivity |].
  split.
  { intros u v Hu Hv.
    rewrite spec_disk_mask_entry by lia.
    unfold centered, in_disk, F64.of_bool.
    replace (Z.of_nat 128 / 2)%Z with 64%Z by reflexivity.
    rewrite !Z2Nat.id by lia.
    replace (u + 64 - 64)%Z with u by lia.
    replace (v + 64 - 64)%Z with v by lia.
    reflexivity. }
  split; [vm_compute; reflexivity |].
  pose proof PI_upper. pose proof PI_lower.
  apply Rabs_def1; lra.
Qed.

(** The mask at the zero frequency (u, v) = (0, 0) is 1. *)
Lemma create_radial_mask_128_disk_witness :
  entry2 (spec_disk_mask 128 63) 64 64 = Some 1%float.
Proof.
  destruct create_radial_mask_128_disk as [_ [H _]].
  exact (H 0%Z 0%Z ltac:(lia) ltac:(lia)).
Defined.

(** C10. With [radius] omitted (the default [None]) the call stops with a
    TypeError at [radius -= 1.], whatever the shape; and for no argument at
    all does control reach the [elif radius is None] branch. *)
Theorem create_radial_mask_none_unreachable :
  (forall shape, create_radial_mask shape PyNone = Raise TypeError)
  /\ (forall radius,
        (r1 <- py_sub_float radius 1%float ;; radial_mask_branch r1)
        <> Ok BranchNone).
Proof.
  split; [reflexivity |].
  intros radius. unfold py_sub_float, rbind.
  destruct (py_float radius) as [f | e]; [| discriminate].
  unfold radial_mask_branch, py_lt_float, py_float, rbind, py_is_none.
  destruct (f - 1 <? 0)%float; discriminate.
Qed.

(** * Facts about [load_protein] *)

(** ** Broadcasting *)

Lemma map_result_ok {A C : Type} (g : A -> C) (l : list A) :
  Np.map_result (fun a => Ok (g a)) l = Ok (map g l).
Proof.
  induction l as [| a l IH]; simpl; [reflexivity |].
  rewrite IH. reflexivity.
Qed.

Lemma map_result_ext {A C : Type} (f f' : A -> result C) (l : list A) :
  (forall a, In a l -> f a = f' a) ->
  Np.map_result f l = Np.map_result f' l.
Proof.
  induction l as [| a l IH]; intros H; simpl; [reflexivity |].
  rewrite (H a (or_introl eq_refl)), IH; [reflexivity |].
  intros a' Ha'. apply H. right. exact Ha'.
Qed.

Lemma broadcast_left1 {A B C : Type} (f : A -> B -> result C) a lb :
  Np.broadcast f [a] lb = Np.map_result (f a) lb.
Proof.
  unfold Np.broadcast.
  destruct lb as [| b [| b' lb']]; reflexivity.
Qed.

Lemma broadcast_right1 {A B C : Type} (f : A -> B -> result C) la b :
  Np.broadcast f la [b] = Np.map_result (fun a => f a b) la.
Proof.
  unfold Np.broadcast.
  destruct la as [| a [| a' la']]; reflexivity.
Qed.

Lemma zip_with_map_r {A B C P : Type} (f : A -> B -> result C)
    (F : P -> B) (g : A * P -> C) (la : list A) (p : list P) :
  length la = length p ->
  (forall a x, In (a, x) (combine la p) -> f a (F x) = Ok (g (a, x))) ->
  Np.zip_with f la (map F p) = Ok (map g (combine la p)).
Proof.
  revert p. induction la as [| a la IH]; intros [| x p] Hlen H;
    simpl in *; try discriminate; [reflexivity |].
  rewrite (H a x (or_introl eq_refl)). simpl.
  rewrite IH; [reflexivity | lia |].
  intros a' x' Hin. apply H. right. exact Hin.
Qed.

Lemma broadcast_map_r {A B C P : Type} (f : A -> B -> result C)
    (F : P -> B) (g : A * P -> C) (la : list A) (p : list P) :
  length la = length p ->
  (forall a x, In (a, x) (combine la p) -> f a (F x) = Ok (g (a, x))) ->
  Np.broadcast f la (map F p) = Ok (map g (combine la p)).
Proof.
  intros Hlen H. unfold Np.broadcast.
  rewrite length_map, Hlen, Nat.eqb_refl.
  apply zip_with_map_r; assumption.
Qed.

(** The three reshaped copies of [p] multiply to the separable product:
    entry [i][j][k] is [p[k] * p[j] * p[i]]. *)
Lemma premult3_separable (p : Np.array1) :
  premult3 p
  = Ok (map (fun pi => map (fun pj => map (fun pk => (pk * pj * pi)%float) p) p) p).
Proof.
  unfold premult3, reshape_1_1_n, reshape_1_n_1, reshape_n_1_1, Np.binop3.
  assert (H12 : Np.broadcast (Np.binop2 PrimFloat.mul) [[p]] [map (fun x => [x]) p]
                = Ok [map (fun pj => map (fun pk => (pk * pj)%float) p) p]).
  { rewrite broadcast_left1. simpl.
    unfold Np.binop2 at 1. rewrite broadcast_left1.
    rewrite (@map_result_ext _ _ _
               (fun b => Ok (map (fun pk => (pk * hd 0%float b)%float) p))).
    - rewrite map_result_ok, map_map. reflexivity.
    - intros b Hb. apply in_map_iff in Hb as [x [<- _]].
      unfold Np.binop1. rewrite broadcast_right1.
      unfold Np.lift0. apply map_result_ok. }
  rewrite H12. simpl. rewrite broadcast_left1.
  rewrite (@map_result_ext _ _ _
             (fun c => Ok (map (map (fun v => (v * hd 0%float (hd [] c))%float))
                             (map (fun pj => map (fun pk => (pk * pj)%float) p) p)))).
  - rewrite map_result_ok, map_map. f_equal.
    apply map_ext; intros pi. simpl.
    rewrite map_map. apply map_ext; intros pj.
    rewrite map_map. reflexivity.
  - intros c Hc. apply in_map_iff in Hc as [x [<- _]].
    unfold Np.binop2. rewrite broadcast_right1.
    rewrite (@map_result_ext _ _ _
               (fun row => Ok (map (fun v => (v * x)%float) row))).
    + rewrite map_result_ok. reflexivity.
    + intros row _. unfold Np.binop1. rewrite broadcast_right1.
      unfold Np.lift0. apply map_result_ok.
Qed.

Lemma cubic_map3 (D : nat) (f : float -> float) (M : Np.array3) :
  cubic D M -> cubic D (Np.map3 f M).
Proof.
  unfold cubic, Np.map3. intros [Hlen Hall]. split.
  - rewrite length_map. exact Hlen.
  - apply Forall_map. eapply Forall_impl; [| exact Hall].
    intros Mi [Hi Hrows]. simpl. split.
    + rewrite length_map. exact Hi.
    + apply Forall_map. eapply Forall_impl; [| exact Hrows].
      intros Mij Hij. simpl. rewrite length_map. exact Hij.
Qed.

Lemma normalize_mass_cubic (D : nat) total_mass (M M' : Np.array3) :
  cubic D M -> normalize_mass total_mass M = Ok M' -> cubic D M'.
Proof.
  unfold normalize_mass. intros HM.
  destruct (py_is_none total_mass).
  - intros [= <-]. exact HM.
  - destruct (py_float total_mass) as [t | e]; simpl; [| discriminate].
    intros [= <-]. apply cubic_map3. exact HM.
Qed.

(** A cubic volume times the separable product, entry by entry. *)
Lemma binop3_premultiplied (D : nat) (M : Np.array3) (p : Np.array1) :
  cubic D M -> length p = D ->
  Np.binop3 PrimFloat.mul M
    (map (fun pi => map (fun pj => map (fun pk => (pk * pj * pi)%float) p) p) p)
  = Ok (spec_premultiplied M p).
Proof.
  intros [Hlen Hall] Hp. unfold Np.binop3, spec_premultiplied.
  rewrite Forall_forall in Hall.
  apply broadcast_map_r; [etransitivity; [eassumption | symmetry; eassumption] |].
  intros Mi pi Hin.
  destruct (Hall Mi (in_combine_l _ _ _ _ Hin)) as [Hi Hrows].
  rewrite Forall_forall in Hrows.
  unfold Np.binop2.
  apply (broadcast_map_r (Np.binop1 PrimFloat.mul)
           (fun pj => map (fun pk => (pk * pj * pi)%float) p)
           (fun '(Mij, pj) =>
              map (fun '(m, pk) => (m * (pk * pj * pi))%float) (combine Mij p)));
    [etransitivity; [eassumption | symmetry; eassumption] |].
  intros Mij pj Hin'.
  pose proof (Hrows Mij (in_combine_l _ _ _ _ Hin')) as Hij.
  unfold Np.binop1.
  apply (broadcast_map_r (Np.lift0 PrimFloat.mul)
           (fun pk => (pk * pj * pi)%float)
           (fun '(m, pk) => (m * (pk * pj * pi))%float));
    [etransitivity; [eassumption | symmetry; eassumption] |].
  intros m pk _. reflexivity.
Qed.

Lemma nth_error_combine {A B : Type} (la : list A) (lb : list B) (i : nat)
    (a : A) (b : B) :
  nth_error la i = Some a -> nth_error lb i = Some b ->
  nth_error (combine la lb) i = Some (a, b).
Proof.
  revert lb i. induction la as [| a' la IH]; intros [| b' lb] [| i];
    simpl; try discriminate.
  - intros [= ->] [= ->]. reflexivity.
  - apply IH.
Qed.

(** Entry [i][j][k] of [spec_premultiplied M p] is
    [M[i][j][k] * (p[k] * p[j] * p[i])]. *)
Lemma spec_premultiplied_entry (M : Np.array3) (p : Np.array1)
    (i j k : nat) (m pi pj pk : float) :
  entry3 M i j k = Some m ->
  nth_error p i = Some pi -> nth_error p j = Some pj ->
  nth_error p k = Some pk ->
  entry3 (spec_premultiplied M p) i j k = Some (m * (pk * pj * pi))%float.
Proof.
  unfold entry3, entry2, spec_premultiplied. intros Hm Hi Hj Hk.
  destruct (nth_error M i) as [Mi |] eqn:EMi; [| discriminate].
  destruct (nth_error Mi j) as [Mij |] eqn:EMij; [| discriminate].
  rewrite nth_error_map.
  erewrite nth_error_combine; [| eassumption | eassumption]. simpl.
  rewrite nth_error_map.
  erewrite nth_error_combine; [| eassumption | eassumption]. simpl.
  rewrite nth_error_map.
  erewrite nth_error_combine; [| eassumption | eassumption]. reflexivity.
Qed.

Section LoadProteinFacts.

Variable readMRC : String.string -> Np.array3.
Variable compute_premultiplier : nat -> String.string -> nat -> Np.array1.
Variable window : Np.array3 -> String.string -> Np.array3.
Variable real_to_fspace : Np.array3 -> complex3.

(** C9. [load_protein] multiplies the premultiplier into the volume once:
    the array handed to the forward Fourier transform [real_to_fspace] is
    the windowed, clamped, mass-normalized real-space volume [M'] times the
    separable product [p[k] * p[j] * p[i]] of the one 1-D correction array
    [p = compute_premultiplier(D, 'linear', 2)] along the three axes, and
    the result is the packed transform of that array. *)
Theorem load_protein_premultiplies_once
    (path : String.string) (total_mass : pyval) (D : nat) (M' : Np.array3) :
  length (compute_premultiplier D "linear"%string 2%nat) = D ->
  cubic D (window (readMRC path) "circle"%string) ->
  normalize_mass total_mass
    (clamp_negative (window (readMRC path) "circle"%string)) = Ok M' ->
  load_protein readMRC compute_premultiplier window real_to_fspace
    path total_mass D
  = Ok (pack_structure
          (real_to_fspace
             (spec_premultiplied M'
                (compute_premultiplier D "linear"%string 2%nat))))
  /\ (forall i j k m pi pj pk,
        entry3 M' i j k = Some m ->
        nth_error (compute_premultiplier D "linear"%string 2%nat) i = Some pi ->
        nth_error (compute_premultiplier D "linear"%string 2%nat) j = Some pj ->
        nth_error (compute_premultiplier D "linear"%string 2%nat) k = Some pk ->
        entry3 (spec_premultiplied M'
                  (compute_premultiplier D "linear"%string 2%nat)) i j k
        = Some (m * (pk * pj * pi))%float).
Proof.
  intros Hp Hcubic Hnorm.
  split; [| intros i j k m pi pj pk; apply spec_premultiplied_entry].
  unfold load_protein.
  rewrite premult3_separable. simpl.
  rewrite Hnorm. simpl.
  rewrite (@binop3_premultiplied D); [reflexivity | | exact Hp].
  eapply normalize_mass_cubic; [| exact Hnorm].
  apply cubic_map3. exact Hcubic.
Qed.

End LoadProteinFacts.

Lemma load_protein_premultiplies_once_witness :
  load_protein (fun _ => demo_volume) (fun D _ _ => repeat 0.5%float D)
    (fun M _ => M) demo_fft "1AON.mrc"%string (PyInt 72) 2
  = Ok (pack_structure
          (demo_fft
             (spec_premultiplied
                (Np.map3 (fun v => (v * 2)%float) demo_volume)
                [0.5; 0.5]%float))).
Proof.
  refine (proj1 (@load_protein_premultiplies_once
           (fun _ => demo_volume) (fun D _ _ => repeat 0.5%float D)
           (fun M _ => M) demo_fft "1AON.mrc"%string (PyInt 72) 2%nat
           (Np.map3 (fun v => (v * 2)%float) demo_volume) _ _ _)).
  - reflexivity.
  - unfold cubic, demo_volume. simpl. repeat constructor.
  - vm_compute. reflexivity.
Defined.

(** ** Mass normalization of a volume that sums to zero *)

Lemma is_zero_spec (x : float) :
  PrimFloat.is_zero x = true -> exists s, Prim2SF x = S754_zero s.
Proof.
  unfold PrimFloat.is_zero. rewrite eqb_spec.
  change (Prim2SF zero) with (S754_zero false).
  destruct (Prim2SF x) as [s | s | | s m e]; simpl; try discriminate.
  - intros _. exists s. reflexivity.
  - destruct s; discriminate.
  - destruct s; discriminate.
Qed.

Lemma div_by_zero_non_finite (t x : float) :
  PrimFloat.is_zero x = true -> non_finite (t / x).
Proof.
  intros Hx. destruct (@is_zero_spec x Hx) as [s Hs].
  unfold non_finite. rewrite div_spec. unfold SF64div, SFdiv. rewrite Hs.
  destruct (Prim2SF t); eauto.
Qed.

Lemma mul_non_finite (v s : float) : non_finite s -> non_finite (v * s).
Proof.
  unfold non_finite. rewrite mul_spec. unfold SF64mul, SFmul.
  intros [-> | [b ->]]; destruct (Prim2SF v); eauto.
Qed.

Lemma mul_zero_non_finite (v s : float) :
  PrimFloat.is_zero v = true -> non_finite s -> Prim2SF (v * s) = S754_nan.
Proof.
  intros Hv Hs. destruct (@is_zero_spec v Hv) as [b Hb].
  rewrite mul_spec. unfold SF64mul, SFmul. rewrite Hb.
  destruct Hs as [-> | [b' ->]]; reflexivity.
Qed.

Lemma non_finite_is_finite (f : float) :
  non_finite f -> PrimFloat.is_finite f = false.
Proof.
  unfold PrimFloat.is_finite, PrimFloat.is_nan, PrimFloat.is_infinity.
  rewrite !eqb_spec, abs_spec.
  change (Prim2SF infinity) with (S754_infinity false).
  intros [-> | [s ->]]; [reflexivity | destruct s; reflexivity].
Qed.

Lemma nan_is_nan (f : float) : Prim2SF f = S754_nan -> PrimFloat.is_nan f = true.
Proof.
  unfold PrimFloat.is_nan. rewrite eqb_spec. intros ->. reflexivity.
Qed.

Lemma all3_map3 (P : float -> Prop) (f : float -> float) (M : Np.array3) :
  (forall v, P (f v)) -> all3 P (Np.map3 f M).
Proof.
  intros H. unfold all3, Np.map3.
  apply Forall_map, Forall_forall; intros Mi _.
  apply Forall_map, Forall_forall; intros Mij _.
  apply Forall_map, Forall_forall; intros v _. apply H.
Qed.

(** C7, as the code has it. When the voxel values sum to zero (plus or
    minus 0.0) and [total_mass] is a number, the mass-normalization step
    raises no error: it divides [float(total_mass)] by the zero sum and
    scales every voxel by the quotient, so every voxel of the normalized
    volume is NaN or infinite, and a zero voxel becomes NaN. *)
Theorem normalize_mass_zero_sum_silent
    (total_mass : pyval) (t : float) (M : Np.array3) :
  py_float total_mass = Ok t ->
  PrimFloat.is_zero (Np.sum3 M) = true ->
  normalize_mass total_mass M
  = Ok (Np.map3 (fun v => (v * (t / Np.sum3 M))%float) M)
  /\ all3 (fun v => PrimFloat.is_finite v = false)
       (Np.map3 (fun v => (v * (t / Np.sum3 M))%float) M)
  /\ (forall v, PrimFloat.is_zero v = true ->
        PrimFloat.is_nan (v * (t / Np.sum3 M)) = true).
Proof.
  intros Ht Hsum.
  pose proof (@div_by_zero_non_finite t _ Hsum) as Hscale.
  split; [| split].
  - unfold normalize_mass.
    destruct total_mass as [| z | f]; simpl in *; try discriminate.
    + rewrite Ht. reflexivity.
    + injection Ht as ->. reflexivity.
  - apply all3_map3. intros v.
    apply non_finite_is_finite, mul_non_finite, Hscale.
  - intros v Hv. apply nan_is_nan, mul_zero_non_finite; assumption.
Qed.

Lemma normalize_mass_zero_sum_silent_witness :
  normalize_mass (PyInt 80000) zero_volume
  = Ok (Np.map3 (fun v => (v * (80000 / Np.sum3 zero_volume))%float) zero_volume)
  /\ all3 (fun v => PrimFloat.is_finite v = false)
       (Np.map3 (fun v => (v * (80000 / Np.sum3 zero_volume))%float) zero_volume)
  /\ (forall v, PrimFloat.is_zero v = true ->
        PrimFloat.is_nan (v * (80000 / Np.sum3 zero_volume)) = true).
Proof.
  apply (@normalize_mass_zero_sum_silent (PyInt 80000) 80000%float zero_volume).
  - vm_compute. reflexivity.
  - vm_compute. reflexivity.
Defined.

(** C7 as stated fails: a volume that sums to zero is normalized without any
    error, the result holds NaN in every voxel, and [load_protein] returns
    a tensor whose real channel is NaN throughout. *)
Lemma normalize_mass_zero_sum_no_error :
  Np.sum3 zero_volume = 0%float
  /\ normalize_mass (PyInt 80000) zero_volume
     = Ok [[[nan; nan]; [nan; nan]]; [[nan; nan]; [nan; nan]]]
  /\ load_protein (fun _ => zero_volume) (fun D _ _ => repeat 1%float D)
       (fun M _ => M) demo_fft "1AON.mrc"%string (PyInt 80000) 2
     = Ok [[[[[nan; nan]; [nan; nan]]; [[nan; nan]; [nan; nan]]];
            [[[0; 0]; [0; 0]]; [[0; 0]; [0; 0]]]]]%float.
Proof.
  repeat split; vm_compute; reflexivity.
Qed.

(** * Facts about the rotation matrices *)

Lemma sin_cos_square (t : R) : (sin t * sin t + cos t * cos t = 1)%R.
Proof. exact (sin2_cos2 t). Qed.

Module OperatorsFacts.
Import Operators.
Local Open Scope R_scope.

Ltac split_pairs :=
  repeat match goal with
         | |- (_, _) = (_, _) => apply f_equal2
         end.

Ltac mat_eq := unfold mmul, transpose, det, I3; split_pairs; ring.

Lemma mmul_assoc (A B C : mat3) : mmul (mmul A B) C = mmul A (mmul B C).
Proof.
  destruct A as [[[[a11 a12] a13] [[a21 a22] a23]] [[a31 a32] a33]].
  destruct B as [[[[b11 b12] b13] [[b21 b22] b23]] [[b31 b32] b33]].
  destruct C as [[[[c11 c12] c13] [[c21 c22] c23]] [[c31 c32] c33]].
  mat_eq.
Qed.

Lemma transpose_mmul (A B : mat3) :
  transpose (mmul A B) = mmul (transpose B) (transpose A).
Proof.
  destruct A as [[[[a11 a12] a13] [[a21 a22] a23]] [[a31 a32] a33]].
  destruct B as [[[[b11 b12] b13] [[b21 b22] b23]] [[b31 b32] b33]].
  mat_eq.
Qed.

Lemma mmul_I3_r (A : mat3) : mmul A I3 = A.
Proof.
  destruct A as [[[[a11 a12] a13] [[a21 a22] a23]] [[a31 a32] a33]].
  mat_eq.
Qed.

Lemma det_mmul (A B : mat3) : det (mmul A B) = det A * det B.
Proof.
  destruct A as [[[[a11 a12] a13] [[a21 a22] a23]] [[a31 a32] a33]].
  destruct B as [[[[b11 b12] b13] [[b21 b22] b23]] [[b31 b32] b33]].
  unfold mmul, det. ring.
Qed.

Lemma elementary_is_rotation (a : axis) (t : R) : is_rotation (elementary a t).
Proof.
  pose proof (sin_cos_square t) as H.
  destruct a; unfold elementary;
    (split; [unfold mmul, transpose, I3; split_pairs; nra | unfold det; nra]).
Qed.

Lemma is_rotation_mmul (A B : mat3) :
  is_rotation A -> is_rotation B -> is_rotation (mmul A B).
Proof.
  intros [HA dA] [HB dB]. split.
  - rewrite transpose_mmul, mmul_assoc, <- (mmul_assoc B), HB.
    rewrite <- mmul_assoc, mmul_I3_r. exact HA.
  - rewrite det_mmul, dA, dB. ring.
Qed.

(** C5. Whatever the batch of Euler-angle vectors (and whichever axis each
    angle turns about), every matrix [R] that [rotmat3D_EA] returns is
    orthonormal, [R * R^T = I], with determinant 1; over the reals this
    holds exactly, so within every tolerance. *)
Theorem rotmat3D_EA_rotations
    (convention : axis * axis * axis) (angles : list vec3) :
  length (rotmat3D_EA convention angles) = length angles
  /\ Forall is_rotation (rotmat3D_EA convention angles).
Proof.
  destruct convention as [[x1 x2] x3]. unfold rotmat3D_EA. split.
  - apply length_map.
  - apply Forall_map, Forall_forall. intros [[t1 t2] t3] _.
    repeat apply is_rotation_mmul; apply elementary_is_rotation.
Qed.

End OperatorsFacts.

(** * Facts about the observation model *)

Module ObservationModelFacts.
Import ObservationModel.
Local Open Scope R_scope.

Lemma mapi_from_compose {A B C : Type} (f : nat -> B -> C) (g : nat -> A -> B)
    (n : nat) (l : list A) :
  mapi_from n f (mapi_from n g l) = mapi_from n (fun k a => f k (g k a)) l.
Proof.
  revert n. induction l as [| a l IH]; intros n; simpl; [reflexivity |].
  rewrite IH. reflexivity.
Qed.

Lemma mapi_from_id {A : Type} (f : nat -> A -> A) (n : nat) (l : list A) :
  (forall k a, f k a = a) -> mapi_from n f l = l.
Proof.
  intros H. revert n. induction l as [| a l IH]; intros n; simpl;
    [reflexivity |].
  rewrite H, IH. reflexivity.
Qed.

Lemma map_mapi_from {A B C : Type} (h : B -> C) (f : nat -> A -> B)
    (n : nat) (l : list A) :
  map h (mapi_from n f l) = mapi_from n (fun k a => h (f k a)) l.
Proof.
  revert n. induction l as [| a l IH]; intros n; simpl; [reflexivity |].
  rewrite IH. reflexivity.
Qed.

Lemma mapi_from_const {A B : Type} (f : nat -> A -> B) (h : A -> B)
    (n : nat) (l : list A) :
  (forall k a, f k a = h a) -> mapi_from n f l = map h l.
Proof.
  intros H. revert n. induction l as [| a l IH]; intros n; simpl;
    [reflexivity |].
  rewrite H, IH. reflexivity.
Qed.

Lemma nth_error_mapi_from {A B : Type} (f : nat -> A -> B) (n k : nat)
    (l : list A) :
  nth_error (mapi_from n f l) k = option_map (f (n + k)%nat) (nth_error l k).
Proof.
  revert n k. induction l as [| a l IH]; intros n [| k]; simpl;
    try reflexivity.
  - rewrite Nat.add_0_r. reflexivity.
  - rewrite IH. replace (S n + k)%nat with (n + S k)%nat by lia. reflexivity.
Qed.

Lemma phase_opp (d : nat) (u v : Z) (tx ty : R) :
  phase d u v (- tx, - ty) = - phase d u v (tx, ty).
Proof. unfold phase, Rdiv. simpl. ring. Qed.

Lemma cmul_phase_inverse (phi : R) (c : complex) :
  cmul_phase (- phi) (cmul_phase phi c) = c.
Proof.
  destruct c as [a b]. unfold cmul_phase. simpl.
  rewrite cos_neg, sin_neg.
  pose proof (sin_cos_square phi) as H.
  apply f_equal2.
  - transitivity (a * (sin phi * sin phi + cos phi * cos phi)); [ring |].
    rewrite H. ring.
  - transitivity (b * (sin phi * sin phi + cos phi * cos phi)); [ring |].
    rewrite H. ring.
Qed.

Lemma cabs_cmul_phase (phi : R) (c : complex) :
  cabs (cmul_phase phi c) = cabs c.
Proof.
  destruct c as [a b]. unfold cabs, cmul_phase. simpl. f_equal.
  pose proof (sin_cos_square phi) as H.
  transitivity ((a * a + b * b) * (sin phi * sin phi + cos phi * cos phi));
    [ring |].
  rewrite H. ring.
Qed.

(** C4. For every slice and every translation (tx, ty): shifting by
    (tx, ty) and then by (-tx, -ty) gives back the slice itself; the
    magnitudes of the shifted coefficients are those of the input,
    coefficient by coefficient; and the coefficient at row [k / D], column
    [k mod D] is the input's times [exp(-2 pi i (u tx + v ty) / D)] at the
    centered indices [u], [v]. *)
Theorem TranslationPhaseShifter_inverse_magnitude
    (d : nat) (tx ty : R) (slice : cimage) :
  TranslationPhaseShifter d (- tx, - ty)
    (TranslationPhaseShifter d (tx, ty) slice) = slice
  /\ map cabs (TranslationPhaseShifter d (tx, ty) slice) = map cabs slice
  /\ (forall k,
        nth_error (TranslationPhaseShifter d (tx, ty) slice) k
        = option_map
            (cmul_phase
               (2 * PI * (IZR (centered d (k mod d)) * tx
                          + IZR (centered d (k / d)) * ty) / INR d))
            (nth_error slice k)).
Proof.
  unfold TranslationPhaseShifter, mapi. split; [| split].
  - rewrite mapi_from_compose. apply mapi_from_id.
    intros k c. rewrite phase_opp. apply cmul_phase_inverse.
  - rewrite map_mapi_from. apply mapi_from_const.
    intros k c. apply cabs_cmul_phase.
  - intros k. rewrite nth_error_mapi_from. reflexivity.
Qed.

Section ForwardFacts.

Variable CentralSliceProjector : nat -> tensor -> Operators.mat3 -> cimage.

(** C3. With noise standard deviation 0 the model returns the noiseless
    projection of every batch entry together with [None]: asking that
    for a log-likelihood or a sample is an AttributeError. A
    distribution object comes back only when the standard deviation is
    positive, and then it is the Gaussian around the projection. *)
Theorem forward_no_noise_no_distribution
    (m : ScientificImagingObservationModel)
    (batch : list (tensor * Operators.mat3 * (R * R))) :
  (std_noise m = 0 ->
   forward CentralSliceProjector m batch
   = (map (fun '(volume, rot, t) =>
             project CentralSliceProjector m volume rot t) batch,
      None)
   /\ (forall value,
         call_log_prob (snd (forward CentralSliceProjector m batch)) value
         = Raise AttributeError)
   /\ (forall g,
         call_sample (snd (forward CentralSliceProjector m batch)) g
         = Raise AttributeError))
  /\ (forall d,
        snd (forward CentralSliceProjector m batch) = Some d ->
        0 < std_noise m
        /\ d = {| loc := fst (forward CentralSliceProjector m batch);
                  scale := std_noise m |}).
Proof.
  unfold forward. simpl. split.
  - intros H0. destruct (Rlt_dec 0 (std_noise m)) as [Hpos | _]; [lra |].
    repeat split; reflexivity.
  - intros d. destruct (Rlt_dec 0 (std_noise m)) as [Hpos | _];
      [| discriminate].
    intros [= <-]. split; [exact Hpos | reflexivity].
Qed.

End ForwardFacts.

(** The one-voxel model without noise hands back [None]. *)
Lemma forward_no_noise_no_distribution_witness :
  snd (forward Notebook.demo_projector (Notebook.demo_model 0)
         Notebook.demo_batch) = None.
Proof.
  destruct (forward_no_noise_no_distribution Notebook.demo_projector
              (Notebook.demo_model 0) Notebook.demo_batch) as [H _].
  destruct (H eq_refl) as [E _]. rewrite E. reflexivity.
Defined.

End ObservationModelFacts.

(** * Facts about the training cell *)

Module TrainingFacts.
Import ObservationModel Training.
Local Open Scope R_scope.

Lemma map2_app {A B C : Type} (f : A -> B -> C) (la la' : list A)
    (lb lb' : list B) :
  length la = length lb ->
  map2 f (la ++ la') (lb ++ lb') = map2 f la lb ++ map2 f la' lb'.
Proof.
  revert lb. induction la as [| a la IH]; intros [| b lb] Hlen;
    simpl in *; try discriminate; [reflexivity |].
  rewrite IH by lia. reflexivity.
Qed.

Lemma tsum_app (s t : tensor) : tsum (s ++ t) = tsum s + tsum t.
Proof.
  unfold tsum. induction s as [| x s IH]; simpl; [ring |].
  rewrite IH. ring.
Qed.

(** The loss sums the log-density of every coefficient: replacing the
    observation at any one position, masked or not, moves the loss by that
    coefficient's term over [num_pixels]. *)
Lemma loss_value_every_coefficient (num_pixels sigma m x x' : R)
    (mpre mpost pre post : tensor) :
  length mpre = length pre ->
  exists l l',
    loss_value num_pixels
      (Some {| loc := [mpre ++ m :: mpost]; scale := sigma |})
      (pre ++ x :: post) = Ok l
    /\ loss_value num_pixels
         (Some {| loc := [mpre ++ m :: mpost]; scale := sigma |})
         (pre ++ x' :: post) = Ok l'
    /\ l' - l
       = (normal_log_density m sigma x - normal_log_density m sigma x')
         / num_pixels.
Proof.
  intros Hlen. unfold loss_value, call_log_prob, log_prob. simpl.
  do 2 eexists. split; [reflexivity |]. split; [reflexivity |].
  unfold tsum2. simpl.
  rewrite !map2_app by exact Hlen. simpl.
  rewrite !tsum_app. simpl. unfold Rdiv. ring.
Qed.

Lemma notebook_num_pixels : Notebook.num_pixels = Ok 12453.
Proof.
  unfold Notebook.num_pixels.
  assert (H : notebook_mask = Ok (spec_disk_mask 128 63))
    by (vm_compute; reflexivity).
  rewrite H. simpl. apply f_equal.
  assert (Hs : Np.sum2 (spec_disk_mask 128 63) = 12453%float)
    by (vm_compute; reflexivity).
  rewrite Hs. unfold F64R.to_R.
  set (x := F64.decode 12453%float). vm_compute in x. subst x.
  simpl. lra.
Qed.

(** C2, at the failing input. The coefficient at row 0, column 0 lies at
    the centered frequency (-64, -64), farther than D/2 = 64 from the
    origin, and the mask is 0 there; still the loss of the training loop
    changes by 1 / (2 * 12453) when the observation changes at that
    coefficient alone, so the coefficient is neither zeroed nor left out
    of the sum. *)
Theorem loss_counts_super_nyquist_coefficient :
  notebook_mask = Ok (spec_disk_mask 128 63)
  /\ entry2 (spec_disk_mask 128 63) 0 0 = Some 0%float
  /\ (centered 128 0 * centered 128 0 + centered 128 0 * centered 128 0
      > (128 / 2) * (128 / 2))%Z
  /\ Notebook.num_pixels = Ok 12453
  /\ exists l0 l1,
       loss_value 12453 (Some Notebook.unit_normal) Notebook.observation_zero
       = Ok l0
       /\ loss_value 12453 (Some Notebook.unit_normal)
            Notebook.observation_corner = Ok l1
       /\ l1 - l0 = 1 / (2 * 12453).
Proof.
  split; [vm_compute; reflexivity |].
  split; [vm_compute; reflexivity |].
  split; [vm_compute; reflexivity |].
  split; [exact notebook_num_pixels |].
  destruct (@loss_value_every_coefficient 12453 1 0 0 1 [] (repeat 0 Notebook.rest)
              [] (repeat 0 Notebook.rest) eq_refl)
    as [l0 [l1 [H0 [H1 Hd]]]].
  exists l0, l1. split; [exact H0 |]. split; [exact H1 |].
  rewrite Hd. unfold normal_log_density. field.
Qed.

Section LoopFacts.

Variable opt_state : Type.
Variable adam_update
  : Adam opt_state -> tensor -> tensor -> tensor * opt_state.
Variable gradient : (tensor -> R) -> tensor -> tensor.
Variable softplus : R -> R.
Variable rotmat3D_EA : list Operators.vec3 -> list Operators.mat3.
Variable observation_model
  : tensor -> list Operators.mat3 -> R * R -> list tensor * option Normal.
Variable D : nat.
Variable dataset : list (tensor * Operators.vec3 * (R * R)).
Variable num_pixels : R.
Variable numpy_randint : nat -> nat -> nat * nat.

Local Abbreviation iteration :=
  (training_iteration adam_update gradient softplus rotmat3D_EA
     observation_model D dataset num_pixels numpy_randint).

Local Abbreviation loop :=
  (training_loop adam_update gradient softplus rotmat3D_EA
     observation_model D dataset num_pixels numpy_randint).

Local Abbreviation spec :=
  (spec_iteration adam_update gradient softplus rotmat3D_EA
     observation_model D dataset num_pixels numpy_randint).

Local Abbreviation L :=
  (loss_fn softplus rotmat3D_EA observation_model D num_pixels).

Lemma observe_distribution (protein_sample : tensor)
    (datum : tensor * Operators.vec3 * (R * R)) :
  returns_distribution observation_model ->
  exists d,
    snd (observe rotmat3D_EA observation_model D protein_sample datum)
    = Some d.
Proof.
  intros H. destruct datum as [[obs [[a1 a2] a3]] [tx ty]].
  unfold observe. apply H.
Qed.

Lemma observe_none (protein_sample : tensor)
    (datum : tensor * Operators.vec3 * (R * R)) :
  returns_none observation_model ->
  snd (observe rotmat3D_EA observation_model D protein_sample datum) = None.
Proof.
  intros H. destruct datum as [[obs [[a1 a2] a3]] [tx ty]].
  unfold observe. apply H.
Qed.

Lemma bind_ok {A B : Type} (m : M opt_state A) (k : A -> M opt_state B)
    (w w1 : world opt_state) (a : A) :
  m w = (Ok a, w1) -> bind m k w = k a w1.
Proof. intros H. unfold bind. rewrite H. reflexivity. Qed.

Lemma bind_raise {A B : Type} (m : M opt_state A) (k : A -> M opt_state B)
    (w w1 : world opt_state) (e : exn) :
  m w = (Raise e, w1) -> bind m k w = (Raise e, w1).
Proof. intros H. unfold bind. rewrite H. reflexivity. Qed.

(** [opt.step()] changes values and Adam's moments only: every [.grad]
    and the optimizer's parameter list stay as they were. *)
Lemma step_params_keeps (ps : list pname) (opt : Adam opt_state) (s : store) :
  params (fst (step_params adam_update opt ps s)) = params opt
  /\ forall q, grad (get (snd (step_params adam_update opt ps s)) q)
               = grad (get s q).
Proof.
  revert opt s. induction ps as [| p ps IH]; intros opt s; simpl.
  - split; reflexivity.
  - destruct (grad (get s p)) as [g |] eqn:Eg; [| apply IH].
    destruct (adam_update opt (value (get s p)) g) as [v os].
    destruct (IH {| params := params opt; lr := lr opt; betas := betas opt;
                    state := os |}
                 (set s p {| value := v; grad := Some g |})) as [Hp Hg].
    split; [exact Hp |].
    intros q. rewrite Hg.
    destruct p, q; simpl in *; congruence.
Qed.

(** [opt.zero_grad()] clears the gradients of the optimizer's parameters
    and never sets one. *)
Lemma zero_grad_clears (opt : Adam opt_state) (s : store) (q : pname) :
  (In q (params opt) -> grad (get (zero_grad opt s) q) = None)
  /\ (grad (get s q) = None -> grad (get (zero_grad opt s) q) = None).
Proof.
  unfold zero_grad. generalize (params opt) as ps. intros ps. revert s.
  induction ps as [| p ps IH]; intros s; simpl.
  - split; [contradiction | trivial].
  - destruct (IH (set s p {| value := value (get s p); grad := None |}))
      as [Hin Hkeep].
    split.
    + intros [-> | Hq]; [| exact (Hin Hq)].
      apply Hkeep. destruct q; reflexivity.
    + intros Hnone. apply Hkeep. destruct p, q; simpl in *; congruence.
Qed.

(** [optimizer_grad_step] on any list of optimizers: each optimizer takes
    its step and then clears its gradients, in list order; afterwards no
    parameter owned by one of them holds a gradient. *)
Lemma optimizer_loop_clears (opts : list (Adam opt_state)) (k : nat)
    (s : store) (tr : list event) :
  map (@params opt_state)
      (fst (fst (optimizer_loop adam_update k opts s tr)))
  = map (@params opt_state) opts
  /\ snd (optimizer_loop adam_update k opts s tr)
     = tr ++ flat_map (fun i => [EvStep i; EvZeroGrad i]) (seq k (length opts))
  /\ forall q,
       (grad (get s q) = None \/ exists o, In o opts /\ In q (params o)) ->
       grad (get (snd (fst (optimizer_loop adam_update k opts s tr))) q) = None.
Proof.
  revert k s tr. induction opts as [| opt rest IH]; intros k s tr; simpl.
  - split; [reflexivity |]. split; [symmetry; apply app_nil_r |].
    intros q [H | [o [[] _]]]. exact H.
  - unfold step.
    destruct (step_params_keeps (params opt) opt s) as [Hp Hg].
    destruct (step_params adam_update opt (params opt) s) as [opt' s1].
    simpl in Hp, Hg.
    specialize (IH (S k) (zero_grad opt' s1) (tr ++ [EvStep k; EvZeroGrad k])).
    destruct (optimizer_loop adam_update (S k) rest (zero_grad opt' s1)
                (tr ++ [EvStep k; EvZeroGrad k])) as [[rest' s3] tr'].
    simpl in *. destruct IH as [IHp [IHt IHg]].
    split; [rewrite Hp, IHp; reflexivity |].
    split; [rewrite IHt, <- app_assoc; reflexivity |].
    intros q Hq. apply IHg.
    destruct (zero_grad_clears opt' s1 q) as [Hin Hkeep].
    destruct Hq as [Hnone | [o [[<- | Ho] Hqo]]].
    + left. apply Hkeep. rewrite Hg. exact Hnone.
    + left. apply Hin. rewrite Hp. exact Hqo.
    + right. exists o. split; assumption.
Qed.

(** The two optimizers of the notebook on parameters that both hold a
    gradient: each parameter goes through the update rule of its own
    optimizer once, and both slots are empty afterwards. *)
Lemma optimizer_grad_step_two (w : world opt_state) (o1 o2 : Adam opt_state)
    (g1 g2 : tensor) :
  optimizer w = [o1; o2] ->
  params o1 = [ProteinLoc] ->
  params o2 = [ProteinLogScale] ->
  grad (protein_loc (st w)) = Some g1 ->
  grad (protein_log_scale (st w)) = Some g2 ->
  optimizer_grad_step adam_update w
  = (Ok tt,
     {| st :=
          {| protein_loc :=
               {| value := fst (adam_update o1 (value (protein_loc (st w))) g1);
                  grad := None |};
             protein_log_scale :=
               {| value :=
                    fst (adam_update o2 (value (protein_log_scale (st w))) g2);
                  grad := None |} |};
        optimizer :=
          [{| params := params o1; lr := lr o1; betas := betas o1;
              state := snd (adam_update o1 (value (protein_loc (st w))) g1) |};
           {| params := params o2; lr := lr o2; betas := betas o2;
              state :=
                snd (adam_update o2 (value (protein_log_scale (st w))) g2) |}];
        torch_gen := torch_gen w;
        numpy_cursor := numpy_cursor w;
        error := error w;
        trace := trace w ++ [EvStep 0; EvZeroGrad 0; EvStep 1; EvZeroGrad 1] |}).
Proof.
  destruct w as [[[v1 gr1] [v2 gr2]] opts g c err tr]. simpl.
  intros -> Ho1 Ho2 -> ->.
  unfold optimizer_grad_step. simpl. unfold step, zero_grad.
  rewrite ?Ho1, ?Ho2. simpl.
  destruct (adam_update o1 v1 g1) as [v1' os1]. simpl.
  rewrite ?Ho1, ?Ho2. simpl.
  destruct (adam_update o2 v2 g2) as [v2' os2]. simpl.
  rewrite ?Ho1, ?Ho2. simpl.
  rewrite <- app_assoc. reflexivity.
Qed.

(** One iteration that gets a distribution object from the model, step by
    step, from any content of the two [.grad] slots: the state it ends
    in. *)
Lemma training_iteration_explicit (w : world opt_state)
    (o1 o2 : Adam opt_state) :
  dataset <> [] ->
  scale_positive softplus (st w) ->
  optimizer w = [o1; o2] ->
  params o1 = [ProteinLoc] ->
  params o2 = [ProteinLogScale] ->
  let loc := value (protein_loc (st w)) in
  let log_scale := value (protein_log_scale (st w)) in
  let drawn := numpy_randint (length dataset) (numpy_cursor w) in
  let datum := nth (fst drawn mod length dataset)%nat dataset default_datum in
  let eps := fst (randn (length loc) (torch_gen w)) in
  (exists d,
     snd (observe rotmat3D_EA observation_model D
            (rsample_value loc (map softplus log_scale) eps) datum)
     = Some d) ->
  let g_loc :=
    accumulated (grad (protein_loc (st w)))
                (gradient (fun x => L eps datum x log_scale) loc) in
  let g_log_scale :=
    accumulated (grad (protein_log_scale (st w)))
                (gradient (fun x => L eps datum loc x) log_scale) in
  iteration w
  = (Ok tt,
     {| st :=
          {| protein_loc :=
               {| value := fst (adam_update o1 loc g_loc); grad := None |};
             protein_log_scale :=
               {| value := fst (adam_update o2 log_scale g_log_scale);
                  grad := None |} |};
        optimizer :=
          [{| params := params o1; lr := lr o1; betas := betas o1;
              state := snd (adam_update o1 loc g_loc) |};
           {| params := params o2; lr := lr o2; betas := betas o2;
              state := snd (adam_update o2 log_scale g_log_scale) |}];
        torch_gen := snd (randn (length loc) (torch_gen w));
        numpy_cursor := snd drawn;
        error := error w + L eps datum loc log_scale;
        trace := trace w ++ iteration_events |}).
Proof.
  intros Hdata Hscale Hopt Ho1 Ho2 loc log_scale drawn datum eps [dist Hd]
    g_loc g_log_scale.
  assert (Hn : Nat.eqb (length dataset) 0 = false)
    by (destruct dataset; [contradiction | reflexivity]).
  assert (HL : L eps datum loc log_scale
               = - (tsum2 (log_prob dist (fst (fst datum))) / num_pixels)).
  { unfold loss_fn. fold loc log_scale. rewrite Hd. reflexivity. }
  unfold training_iteration.
  erewrite bind_ok; [| unfold randint; rewrite Hn; reflexivity].
  erewrite bind_ok;
    [| unfold protein_dist, Normal_init; cbn [st]; rewrite Hscale;
       reflexivity].
  erewrite bind_ok; [| unfold rsample, randn; reflexivity].
  cbv beta iota.
  cbn [st optimizer torch_gen numpy_cursor error trace cursor tape fst snd].
  fold loc log_scale drawn. fold datum.
  change (map (tape (torch_gen w)) (seq (cursor (torch_gen w)) (length loc)))
    with eps.
  destruct (observe rotmat3D_EA observation_model D
              (rsample_value loc (map softplus log_scale) eps) datum)
    as [projection od] eqn:Eobs.
  simpl in Hd. subst od.
  erewrite bind_ok; [| unfold bind, emit, ret; reflexivity].
  cbv beta iota.
  erewrite bind_ok; [| unfold lift, loss_value; simpl; reflexivity].
  erewrite bind_ok; [| unfold emit; reflexivity].
  erewrite bind_ok; [| unfold backward, bind, with_store, emit; reflexivity].
  erewrite bind_ok;
    [| apply (@optimizer_grad_step_two _ o1 o2 g_loc g_log_scale);
       cbn [optimizer st protein_loc protein_log_scale grad];
       [exact Hopt | exact Ho1 | exact Ho2 | reflexivity | reflexivity]].
  unfold add_error. rewrite HL.
  cbn [st optimizer torch_gen numpy_cursor error trace].
  rewrite <- !app_assoc. reflexivity.
Qed.

(** From empty [.grad] slots an iteration that gets a distribution object
    is the five steps of the spec. *)
Lemma training_iteration_spec (w : world opt_state) :
  dataset <> [] ->
  returns_distribution observation_model ->
  notebook_optimizers (optimizer w) ->
  grads_cleared (st w) ->
  scale_positive softplus (st w) ->
  iteration w = (Ok tt, spec w)
  /\ trace (spec w) = trace w ++ iteration_events
  /\ grads_cleared (st (spec w))
  /\ notebook_optimizers (optimizer (spec w)).
Proof.
  intros Hdata Hdist Hopts [Hg1 Hg2] Hscale.
  unfold notebook_optimizers in Hopts.
  destruct (optimizer w) as [| o1 [| o2 [| o3 os]]] eqn:Hopt;
    try discriminate.
  injection Hopts as Ho1 Ho2.
  pose proof (@training_iteration_explicit w o1 o2 Hdata Hscale Hopt Ho1 Ho2
                (observe_distribution _ _ Hdist)) as Hrun.
  cbv zeta in Hrun. rewrite Hg1, Hg2 in Hrun. cbn [accumulated] in Hrun.
  unfold spec_iteration. rewrite Hopt.
  split; [exact Hrun |].
  cbn [trace st optimizer protein_loc protein_log_scale grad].
  split; [reflexivity |].
  split; [split; reflexivity |].
  unfold notebook_optimizers. cbn [map params]. rewrite Ho1, Ho2.
  reflexivity.
Qed.


(** With a model that returns [None] the iteration stops at the loss:
    [None] has no [log_prob]. The sample has been drawn and the model
    called; nothing else has happened. *)
Lemma training_iteration_without_distribution (w : world opt_state) :
  dataset <> [] ->
  scale_positive softplus (st w) ->
  returns_none observation_model ->
  iteration w
  = (Raise AttributeError,
     {| st := st w;
        optimizer := optimizer w;
        torch_gen :=
          snd (randn (length (value (protein_loc (st w)))) (torch_gen w));
        numpy_cursor :=
          snd (numpy_randint (length dataset) (numpy_cursor w));
        error := error w;
        trace := trace w ++ [EvSample; EvObserve] |}).
Proof.
  intros Hdata Hscale H0.
  assert (Hn : Nat.eqb (length dataset) 0 = false)
    by (destruct dataset; [contradiction | reflexivity]).
  unfold training_iteration.
  erewrite bind_ok; [| unfold randint; rewrite Hn; reflexivity].
  erewrite bind_ok;
    [| unfold protein_dist, Normal_init; cbn [st]; rewrite Hscale;
       reflexivity].
  erewrite bind_ok; [| unfold rsample, randn; reflexivity].
  cbv beta iota.
  match goal with
  | |- context [observe _ _ _ ?smp ?datum] =>
      pose proof (observe_none smp datum H0) as Hnone;
      destruct (observe rotmat3D_EA observation_model D smp datum)
        as [projection od]
  end.
  simpl in Hnone. subst od.
  erewrite bind_ok; [| unfold bind, emit, ret; reflexivity].
  cbv beta iota.
  erewrite bind_raise; [| unfold lift, loss_value; simpl; reflexivity].
  cbn. rewrite <- app_assoc. reflexivity.
Qed.

End LoopFacts.

(** The model of the spec as the loop's callable: a distribution for a
    positive noise standard deviation, [None] for 0. *)
Lemma call_model_distribution
    (projector : nat -> tensor -> Operators.mat3 -> cimage)
    (m : ScientificImagingObservationModel) :
  0 < std_noise m -> returns_distribution (Notebook.call_model projector m).
Proof.
  intros Hpos sample rotation t. unfold Notebook.call_model, forward. simpl.
  destruct (Rlt_dec 0 (std_noise m)) as [_ | Hn];
    [eexists; reflexivity | contradiction].
Qed.

Lemma call_model_none
    (projector : nat -> tensor -> Operators.mat3 -> cimage)
    (m : ScientificImagingObservationModel) :
  std_noise m = 0 -> returns_none (Notebook.call_model projector m).
Proof.
  intros H0 sample rotation t. unfold Notebook.call_model, forward. simpl.
  destruct (Rlt_dec 0 (std_noise m)) as [Hpos | _]; [lra | reflexivity].
Qed.

(** softplus over the reals is positive everywhere, so the posterior's
    scale passes the check of [distributions.Normal] in every state. *)
Lemma exact_softplus_positive (x : R) : 0 < Notebook.exact_softplus x.
Proof.
  unfold Notebook.exact_softplus.
  destruct (Rlt_dec 20 x) as [H | _]; [lra |].
  rewrite <- ln_1. apply ln_increasing; [lra |].
  pose proof (exp_pos x). lra.
Qed.

Lemma exact_softplus_scale_positive (s : store) :
  scale_positive Notebook.exact_softplus s.
Proof.
  unfold scale_positive. apply forallb_forall. intros y Hy.
  apply in_map_iff in Hy as [x [<- _]].
  unfold is_positive.
  destruct (Rlt_dec 0 (Notebook.exact_softplus x)) as [_ | Hn];
    [reflexivity |].
  exfalso. apply Hn. apply exact_softplus_positive.
Qed.



End TrainingFacts.

(** * More facts about [create_radial_mask] *)

Lemma list_eqb_eq {A : Type} (eqb : A -> A -> bool) (l l' : list A) :
  (forall a a', eqb a a' = true -> a = a') ->
  list_eqb eqb l l' = true -> l = l'.
Proof.
  intros Heq. revert l'. induction l as [| a l IH]; intros [| a' l'];
    simpl; try discriminate; [reflexivity |].
  intros H. apply andb_prop in H as [Ha Hl].
  rewrite (Heq _ _ Ha), (IH _ Hl). reflexivity.
Qed.

Lemma mask_result_eqb_eq (r r' : result Np.array2) :
  mask_result_eqb r r' = true -> r = r'.
Proof.
  destruct r as [m | e], r' as [m' | e']; simpl; try discriminate.
  - intros H. f_equal. revert H. apply list_eqb_eq.
    intros a a'. apply list_eqb_eq.
    intros x y. apply FloatAxioms.Leibniz.eqb_spec.
  - destruct e, e'; simpl; try discriminate; reflexivity.
Qed.

Lemma radial_mask_table :
  forallb (fun N =>
    forallb (fun M =>
      forallb (fun radius => radial_mask_agrees N M radius) small_radii)
      small_sides)
    small_sides = true.
Proof. vm_compute. reflexivity. Qed.

Lemma radial_mask_small (N M : nat) (radius : Z) :
  (N <= 12)%nat -> (M <= 12)%nat -> (-2 <= radius <= 10)%Z ->
  create_radial_mask (N, M) (PyInt radius) = radial_mask_outcome N M radius.
Proof.
  intros HN HM Hr. apply mask_result_eqb_eq.
  pose proof radial_mask_table as H.
  rewrite forallb_forall in H.
  specialize (H N ltac:(apply in_seq; lia)).
  rewrite forallb_forall in H.
  specialize (H M ltac:(apply in_seq; lia)).
  rewrite forallb_forall in H.
  apply H. unfold small_radii. apply in_map_iff.
  exists (Z.to_nat (radius + 2)). split; [lia | apply in_seq; lia].
Qed.

(** A radius argument below 1 (so that [radius - 1.] is negative) gives the
    all-zero array of exactly the shape asked for, square or not, whatever
    the shape. *)
Theorem create_radial_mask_radius_below_one
    (shape : nat * nat) (radius : pyval) (f : float) :
  py_float radius = Ok f ->
  (f - 1 <? 0)%float = true ->
  create_radial_mask shape radius = Ok (Np.zeros shape).
Proof.
  intros Hf Hneg.
  unfold create_radial_mask, py_sub_float. rewrite Hf. simpl.
  unfold radial_mask_branch, py_lt_float. simpl. rewrite Hneg. simpl.
  unfold Np.map2, Np.zeros, Np.full2.
  rewrite !map_repeat. reflexivity.
Qed.

Lemma create_radial_mask_radius_below_one_witness :
  create_radial_mask (2, 3)%nat (PyFloat 0.5) = Ok (Np.zeros (2, 3)%nat).
Proof.
  apply (@create_radial_mask_radius_below_one (2, 3)%nat (PyFloat 0.5)
           0.5%float); reflexivity.
Defined.

(** On square shapes up to 12 x 12 and integer radius arguments from 1 to
    10, the mask is exactly the lattice disk of radius [radius - 1] around
    the center [(N/2, N/2)]: the entry at row [i], column [j] is 1 when
    [(j - N/2)^2 + (i - N/2)^2 <= (radius - 1)^2] and 0 otherwise, for odd
    sides (half-integer coordinates) as for even ones. *)
Theorem create_radial_mask_small_square (N : nat) (radius : Z) :
  (N <= 12)%nat -> (1 <= radius <= 10)%Z ->
  create_radial_mask (N, N) (PyInt radius)
  = Ok (lattice_disk_mask N (radius - 1)).
Proof.
  intros HN Hr.
  rewrite radial_mask_small by lia.
  unfold radial_mask_outcome.
  destruct (Z.ltb_spec radius 1) as [Hlt | _]; [lia |].
  destruct N as [| [| N]]; [reflexivity | reflexivity |].
  rewrite Nat.eqb_refl. reflexivity.
Qed.

Lemma create_radial_mask_small_square_witness :
  create_radial_mask (5, 5)%nat (PyInt 3) = Ok (lattice_disk_mask 5 (3 - 1)).
Proof.
  apply (@create_radial_mask_small_square 5%nat 3%Z); lia.
Defined.

(** The shape argument is only honoured when it is square. For sides [N]
    from 2 to 12 and a radius argument from 1 to 10: a shape [(N, M)] with
    [M] neither [N] nor 1 raises ValueError (the [N] x [N] disk cannot be
    broadcast against [np.ones((N, M))]), and the shape [(N, 1)] returns the
    full [N] x [N] mask instead of one column. *)
Theorem create_radial_mask_small_non_square (N M : nat) (radius : Z) :
  (2 <= N <= 12)%nat -> (M <= 12)%nat -> (1 <= radius <= 10)%Z ->
  (M <> N -> M <> 1%nat ->
   create_radial_mask (N, M) (PyInt radius) = Raise ValueError)
  /\ create_radial_mask (N, 1%nat) (PyInt radius)
     = create_radial_mask (N, N) (PyInt radius).
Proof.
  intros HN HM Hr. split.
  - intros HMN HM1. rewrite radial_mask_small by lia.
    unfold radial_mask_outcome.
    destruct (Z.ltb_spec radius 1) as [Hlt | _]; [lia |].
    destruct N as [| [| N]]; [lia | lia |].
    destruct (Nat.eqb_spec M (S (S N))) as [-> | _]; [contradiction |].
    destruct (Nat.eqb_spec M 1) as [-> | _]; [contradiction |].
    reflexivity.
  - rewrite !radial_mask_small by lia.
    unfold radial_mask_outcome.
    destruct (Z.ltb_spec radius 1) as [Hlt | _]; [lia |].
    destruct N as [| [| N]]; [lia | lia |].
    rewrite !Nat.eqb_refl, ?orb_true_r. reflexivity.
Qed.

Lemma create_radial_mask_small_non_square_witness :
  create_radial_mask (4, 3)%nat (PyInt 2) = Raise ValueError.
Proof.
  refine (proj1 (@create_radial_mask_small_non_square 4%nat 3%nat 2%Z
                   _ _ _) _ _); lia.
Defined.

(** * More facts about [load_protein] *)

Section LoadProteinMore.

Variable readMRC : String.string -> Np.array3.
Variable compute_premultiplier : nat -> String.string -> nat -> Np.array1.
Variable window : Np.array3 -> String.string -> Np.array3.
Variable real_to_fspace : Np.array3 -> complex3.

(** A volume of side [D'] loaded with a premultiplier for another side [D]
    (both at least 2) is rejected: [M * premult] raises numpy's broadcast
    ValueError, and the Fourier transform is never reached. *)
Theorem load_protein_side_mismatch
    (path : String.string) (total_mass : pyval) (D D' : nat) (M' : Np.array3) :
  length (compute_premultiplier D "linear"%string 2%nat) = D ->
  cubic D' (window (readMRC path) "circle"%string) ->
  normalize_mass total_mass
    (clamp_negative (window (readMRC path) "circle"%string)) = Ok M' ->
  (2 <= D)%nat -> (2 <= D')%nat -> D <> D' ->
  load_protein readMRC compute_premultiplier window real_to_fspace
    path total_mass D
  = Raise ValueError.
Proof.
  intros Hp Hcubic Hnorm HD HD' Hne. unfold load_protein.
  rewrite premult3_separable. simpl. rewrite Hnorm. simpl.
  assert (HM : length M' = D').
  { apply (@normalize_mass_cubic D' total_mass
             (clamp_negative (window (readMRC path) "circle"%string)) M');
      [apply cubic_map3; exact Hcubic | exact Hnorm]. }
  set (p := compute_premultiplier D "linear"%string 2%nat) in *.
  unfold Np.binop3, Np.broadcast.
  unfold Np.array3, Np.array2, Np.array1 in *. rewrite length_map, HM, Hp.
  destruct (Nat.eqb_spec D' D) as [E | _]; [congruence |].
  destruct M' as [| a [| b M']]; simpl in HM; try lia.
  destruct p as [| x [| y p]]; simpl in Hp; try lia.
  reflexivity.
Qed.

(** A premultiplier of length 1 is never rejected: its one factor, cubed,
    is broadcast over a volume of any shape. *)
Theorem load_protein_scalar_premultiplier
    (path : String.string) (total_mass : pyval) (D : nat) (M' : Np.array3)
    (x : float) :
  compute_premultiplier D "linear"%string 2%nat = [x] ->
  normalize_mass total_mass
    (clamp_negative (window (readMRC path) "circle"%string)) = Ok M' ->
  load_protein readMRC compute_premultiplier window real_to_fspace
    path total_mass D
  = Ok (pack_structure
          (real_to_fspace (Np.map3 (fun v => (v * (x * x * x))%float) M'))).
Proof.
  intros Hp Hnorm. unfold load_protein.
  rewrite premult3_separable, Hp. simpl. rewrite Hnorm. simpl.
  unfold Np.binop3. rewrite broadcast_right1.
  rewrite (@map_result_ext _ _ _
             (fun Mi => Ok (map (map (fun v => (v * (x * x * x))%float)) Mi))).
  - rewrite map_result_ok. reflexivity.
  - intros Mi _. unfold Np.binop2. rewrite broadcast_right1.
    rewrite (@map_result_ext _ _ _
               (fun Mij => Ok (map (fun v => (v * (x * x * x))%float) Mij))).
    + apply map_result_ok.
    + intros Mij _. unfold Np.binop1. rewrite broadcast_right1.
      unfold Np.lift0. apply map_result_ok.
Qed.

End LoadProteinMore.

Lemma load_protein_side_mismatch_witness :
  load_protein (fun _ => demo_volume) (fun D _ _ => repeat 0.5%float D)
    (fun M _ => M) demo_fft "1AON.mrc"%string (PyInt 72) 3
  = Raise ValueError.
Proof.
  apply (@load_protein_side_mismatch
           (fun _ => demo_volume) (fun D _ _ => repeat 0.5%float D)
           (fun M _ => M) demo_fft "1AON.mrc"%string (PyInt 72) 3%nat 2%nat
           (Np.map3 (fun v => (v * 2)%float) demo_volume)).
  - reflexivity.
  - unfold cubic, demo_volume. simpl. repeat constructor.
  - vm_compute. reflexivity.
  - lia.
  - lia.
  - lia.
Defined.

Lemma load_protein_scalar_premultiplier_witness :
  load_protein (fun _ => demo_volume) (fun D _ _ => repeat 0.5%float D)
    (fun M _ => M) demo_fft "1AON.mrc"%string PyNone 1
  = Ok (pack_structure
          (demo_fft
             (Np.map3 (fun v => (v * (0.5 * 0.5 * 0.5))%float) demo_volume))).
Proof.
  apply (@load_protein_scalar_premultiplier
           (fun _ => demo_volume) (fun D _ _ => repeat 0.5%float D)
           (fun M _ => M) demo_fft "1AON.mrc"%string PyNone 1%nat
           demo_volume 0.5%float); reflexivity.
Defined.

(** * Facts about [load_dataset] *)

Module DatasetFacts.
Import Dataset.
Local Open Scope dataset_scope.

Lemma lookup_error (key : String.string) (d : pardata) (e : error) :
  lookup key d = inl e -> e = KeyError key.
Proof.
  induction d as [| [k v] d IH]; simpl.
  - intros [= <-]. reflexivity.
  - destruct (String.eqb k key); [discriminate | exact IH].
Qed.

Lemma replace_at_match (rest : String.string) :
  replace_from "imgdata.mrc" "pardata.pkl" 0
    (String.append "imgdata.mrc" rest)
  = String.append "pardata.pkl"
      (replace_from "imgdata.mrc" "pardata.pkl" 0 rest).
Proof. destruct rest; reflexivity. Qed.

Lemma replace_from_no_match (old new : String.string) (c : Ascii.ascii)
    (s : String.string) :
  String.prefix old (String c s) = false ->
  replace_from old new 0 (String c s) = String c (replace_from old new 0 s).
Proof. intros H. cbn [replace_from]. rewrite H. reflexivity. Qed.

(** A path without [imgdata.mrc] in it is left as it is, so the metadata
    is then read from the image file itself; in a path [dir ++
    "imgdata.mrc" ++ rest] whose first occurrence is the one shown, that
    occurrence becomes [pardata.pkl] and [rest] is treated the same way. *)
Theorem pickle_path_replaces (dir rest : String.string) :
  (absent "imgdata.mrc" dir = true -> pickle_path dir = dir)
  /\ (absent_before "imgdata.mrc" dir (String.append "imgdata.mrc" rest)
      = true ->
      pickle_path (String.append dir (String.append "imgdata.mrc" rest))
      = String.append dir (String.append "pardata.pkl" (pickle_path rest))).
Proof.
  unfold pickle_path. split.
  - induction dir as [| c dir IH]; [reflexivity |].
    cbn [absent]. intros H. apply andb_prop in H as [Hc Hd].
    apply negb_true_iff in Hc.
    rewrite (@replace_from_no_match _ "pardata.pkl" _ _ Hc), (IH Hd).
    reflexivity.
  - induction dir as [| c dir IH].
    + intros _. exact (replace_at_match rest).
    + cbn [absent_before]. intros H.
      apply andb_prop in H as [Hc Hd].
      apply negb_true_iff in Hc.
      change (String.append (String c dir)
                (String.append "imgdata.mrc" rest))
        with (String c (String.append dir
                          (String.append "imgdata.mrc" rest))) in *.
      rewrite (@replace_from_no_match _ "pardata.pkl" _ _ Hc), (IH Hd).
      reflexivity.
Qed.

Lemma pickle_path_replaces_witness :
  pickle_path "./datasets/1AON_1000/imgdata.mrc"
  = "./datasets/1AON_1000/pardata.pkl"%string.
Proof.
  exact (proj2 (pickle_path_replaces "./datasets/1AON_1000/" "") eq_refl).
Defined.

Section LoadDatasetFacts.

Variable readMRC : String.string -> Np.array3.
Variable read_pickle : String.string -> res pardata.
Variable real_to_fspace : Np.array2 -> list (list (float * float)).

Local Abbreviation obs := (observation real_to_fspace).

Lemma nth_error_row {A : Type} (l : list A) (i : nat) :
  (i < length l)%nat -> exists a, nth_error l i = Some a.
Proof.
  intros H. destruct (nth_error l i) as [a |] eqn:E; [eauto |].
  apply nth_error_None in E. lia.
Qed.

Lemma firstn_skipn_cons {A : Type} (l : list A) (i n : nat) (a : A) :
  nth_error l i = Some a ->
  firstn (S n) (skipn i l) = a :: firstn n (skipn (S i) l).
Proof.
  revert i. induction l as [| x l IH]; intros [| i]; simpl;
    try discriminate.
  - intros [= ->]. reflexivity.
  - intros H. exact (IH i H).
Qed.

(** The loop with enough metadata rows: one observation per image, with
    the metadata rows of the same positions. *)
Lemma collect_rows (images : list Np.array2) (d : pardata)
    (ea t : Np.array2) (index : nat) :
  lookup "EA" d = inr ea -> lookup "t" d = inr t ->
  (index + length images <= length ea)%nat ->
  (index + length images <= length t)%nat ->
  collect real_to_fspace index images d
  = inr (map obs images,
         map (fun r => [r]) (firstn (length images) (skipn index ea)),
         map (fun r => [r]) (firstn (length images) (skipn index t))).
Proof.
  intros Hea Ht. revert index.
  induction images as [| img images IH]; intros index Ha Hb.
  - reflexivity.
  - cbn [length] in Ha, Hb. cbn [collect]. rewrite Hea, Ht. cbn [bind].
    destruct (@nth_error_row _ ea index ltac:(lia)) as [ra Hra].
    destruct (@nth_error_row _ t index ltac:(lia)) as [rt Hrt].
    unfold row. rewrite Hra, Hrt. cbn [bind].
    rewrite IH by lia. cbn [bind length map].
    rewrite (@firstn_skipn_cons _ _ _ (length images) _ Hra),
      (@firstn_skipn_cons _ _ _ (length images) _ Hrt).
    reflexivity.
Qed.

(** The loop with too few metadata rows: IndexError at the first image
    whose row is missing. *)
Lemma collect_short (images : list Np.array2) (d : pardata)
    (ea t : Np.array2) (index : nat) :
  lookup "EA" d = inr ea -> lookup "t" d = inr t ->
  (index <= length ea)%nat -> (index <= length t)%nat ->
  (length ea < index + length images)%nat
  \/ (length t < index + length images)%nat ->
  collect real_to_fspace index images d = inl IndexError.
Proof.
  intros Hea Ht. revert index.
  induction images as [| img images IH]; intros index Hia Hit Hshort.
  - cbn [length] in Hshort. lia.
  - cbn [length] in Hshort. cbn [collect]. rewrite Hea, Ht. cbn [bind].
    unfold row.
    destruct (nth_error ea index) as [ra |] eqn:Era; [| reflexivity].
    cbn [bind].
    destruct (nth_error t index) as [rt |] eqn:Ert; [| reflexivity].
    cbn [bind].
    assert (index < length ea)%nat
      by (apply nth_error_Some; rewrite Era; discriminate).
    assert (index < length t)%nat
      by (apply nth_error_Some; rewrite Ert; discriminate).
    rewrite IH; [reflexivity | lia | lia | lia].
Qed.

Lemma stack_uniform {A S : Type} (shape : A -> S) (eqb : S -> S -> bool)
    (arrays : list A) :
  arrays <> [] -> uniform shape eqb arrays = true ->
  stack shape eqb arrays = inr arrays.
Proof.
  destruct arrays as [| a rest]; [contradiction |].
  intros _ H. unfold stack. simpl in H. rewrite H. reflexivity.
Qed.

(** When the stack holds at least one image, the pickled dict has both
    keys with at least as many rows as there are images, and the arrays to
    stack agree in shape, [load_dataset] returns: one observation per
    image (the two channels of its transform), and per image the rotation
    row and the translation row of the same position, each wrapped in a
    leading axis of length 1, all rounded to binary32. The three tensors
    have as many entries as there are images; metadata rows beyond that
    are ignored. *)
Theorem load_dataset_returns (path : String.string) (d : pardata)
    (ea t : Np.array2) :
  read_pickle (pickle_path path) = inr d ->
  lookup "EA" d = inr ea ->
  lookup "t" d = inr t ->
  transpose_201 (readMRC path) <> [] ->
  (length (transpose_201 (readMRC path)) <= length ea)%nat ->
  (length (transpose_201 (readMRC path)) <= length t)%nat ->
  uniform shape3 shape3_eqb (map obs (transpose_201 (readMRC path))) = true ->
  uniform shape2 shape2_eqb
    (map (fun r => [r])
         (firstn (length (transpose_201 (readMRC path))) ea)) = true ->
  uniform shape2 shape2_eqb
    (map (fun r => [r])
         (firstn (length (transpose_201 (readMRC path))) t)) = true ->
  exists observations rotation_representations translations,
    load_dataset readMRC read_pickle real_to_fspace path
    = inr (observations, rotation_representations, translations)
    /\ observations = to_tensor3 (map obs (transpose_201 (readMRC path)))
    /\ rotation_representations
       = to_tensor2
           (map (fun r => [r])
                (firstn (length (transpose_201 (readMRC path))) ea))
    /\ translations
       = to_tensor2
           (map (fun r => [r])
                (firstn (length (transpose_201 (readMRC path))) t))
    /\ length observations = length (transpose_201 (readMRC path))
    /\ length rotation_representations = length observations
    /\ length translations = length observations.
Proof.
  intros Hd Hea Ht Hne Hla Hlt Hu1 Hu2 Hu3.
  set (images := transpose_201 (readMRC path)) in *.
  do 3 eexists. split; [| split; [reflexivity | split; [reflexivity |
    split; [reflexivity |]]]].
  - unfold load_dataset. fold images. rewrite Hd. cbn [bind].
    rewrite (@collect_rows images d ea t 0 Hea Ht) by (simpl; lia).
    cbn [bind skipn].
    assert (Hn : (0 < length images)%nat)
      by (destruct images; [contradiction | simpl; lia]).
    rewrite stack_uniform;
      [| destruct images; [contradiction | discriminate] | exact Hu1].
    cbn [bind].
    rewrite stack_uniform; [| | exact Hu2].
    2:{ intros E. apply (f_equal (@length _)) in E.
        rewrite length_map, length_firstn in E. simpl in E. lia. }
    cbn [bind].
    rewrite stack_uniform; [| | exact Hu3].
    2:{ intros E. apply (f_equal (@length _)) in E.
        rewrite length_map, length_firstn in E. simpl in E. lia. }
    reflexivity.
  - unfold to_tensor3, to_tensor2.
    rewrite !length_map, !length_firstn. repeat split; lia.
Qed.

(** A stack without images makes [np.stack] raise, whatever the pickled
    dict holds: the loop body, and with it every lookup, is never run. *)
Theorem load_dataset_no_image (path : String.string) (d : pardata) :
  read_pickle (pickle_path path) = inr d ->
  transpose_201 (readMRC path) = [] ->
  load_dataset readMRC read_pickle real_to_fspace path = inl StackError.
Proof.
  intros Hd Himg. unfold load_dataset. rewrite Hd, Himg. reflexivity.
Qed.

(** With at least one image, a pickled dict that lacks ['EA'] raises
    KeyError for that key; one that has ['EA'] with at least one row but
    lacks ['t'] raises KeyError for ['t']. *)
Theorem load_dataset_missing_key (path : String.string) (d : pardata) :
  read_pickle (pickle_path path) = inr d ->
  transpose_201 (readMRC path) <> [] ->
  ((forall ea, lookup "EA" d <> inr ea) ->
   load_dataset readMRC read_pickle real_to_fspace path
   = inl (KeyError "EA"))
  /\ (forall ea,
        lookup "EA" d = inr ea -> ea <> [] ->
        (forall t, lookup "t" d <> inr t) ->
        load_dataset readMRC read_pickle real_to_fspace path
        = inl (KeyError "t")).
Proof.
  intros Hd Hne. unfold load_dataset. rewrite Hd. cbn [bind].
  destruct (transpose_201 (readMRC path)) as [| img images];
    [contradiction |].
  cbn [collect]. split.
  - intros Hno. destruct (lookup "EA" d) as [e | ea] eqn:E.
    + rewrite (@lookup_error _ _ _ E). reflexivity.
    + exfalso. exact (Hno ea eq_refl).
  - intros ea Hea Hrows Hno. rewrite Hea. cbn [bind].
    destruct ea as [| r ea]; [contradiction |]. cbn [row nth_error bind].
    destruct (lookup "t" d) as [e | t] eqn:E.
    + rewrite (@lookup_error _ _ _ E). reflexivity.
    + exfalso. exact (Hno t eq_refl).
Qed.

(** With both keys present, fewer rotation rows or fewer translation rows
    than images raise IndexError. *)
Theorem load_dataset_short_metadata (path : String.string) (d : pardata)
    (ea t : Np.array2) :
  read_pickle (pickle_path path) = inr d ->
  lookup "EA" d = inr ea ->
  lookup "t" d = inr t ->
  (length ea < length (transpose_201 (readMRC path)))%nat
  \/ (length t < length (transpose_201 (readMRC path)))%nat ->
  load_dataset readMRC read_pickle real_to_fspace path = inl IndexError.
Proof.
  intros Hd Hea Ht Hshort. unfold load_dataset. rewrite Hd. cbn [bind].
  rewrite (@collect_short _ d ea t 0 Hea Ht) by (simpl; first [lia | exact Hshort]).
  reflexivity.
Qed.

End LoadDatasetFacts.

Lemma load_dataset_returns_witness :
  exists observations rotation_representations translations,
    load_dataset (fun _ => demo_stack) (fun _ => inr demo_pardata) demo_fft2
      "./datasets/1AON_1000/imgdata.mrc"
    = inr (observations, rotation_representations, translations)
    /\ length observations = 3%nat
    /\ length rotation_representations = 3%nat
    /\ length translations = 3%nat.
Proof.
  destruct (@load_dataset_returns
              (fun _ => demo_stack) (fun _ => inr demo_pardata) demo_fft2
              "./datasets/1AON_1000/imgdata.mrc" demo_pardata
              [[10; 20; 30]; [40; 50; 60]; [70; 80; 90]; [0; 0; 0]]%float
              [[0.5; 1.5]; [2.5; 3.5]; [4.5; 5.5]]%float
              eq_refl eq_refl eq_refl
              ltac:(discriminate)
              ltac:(simpl; lia) ltac:(simpl; lia)
              eq_refl eq_refl eq_refl)
    as (o & r & t & H & _ & _ & _ & Ho & Hr & Ht).
  exists o, r, t. split; [exact H |].
  rewrite Ht, Hr, Ho. repeat split.
Defined.

Lemma load_dataset_no_image_witness :
  load_dataset (fun _ => []) (fun _ => inr demo_pardata) demo_fft2
    "./datasets/1AON_1000/imgdata.mrc"
  = inl StackError.
Proof.
  exact (@load_dataset_no_image
           (fun _ => []) (fun _ => inr demo_pardata) demo_fft2
           "./datasets/1AON_1000/imgdata.mrc" demo_pardata
           eq_refl eq_refl).
Defined.

Lemma load_dataset_missing_key_witness :
  load_dataset (fun _ => demo_stack)
    (fun _ => inr [("t"%string, [[0.5; 1.5]]%float)]) demo_fft2
    "./datasets/1AON_1000/imgdata.mrc"
  = inl (KeyError "EA")
  /\ load_dataset (fun _ => demo_stack)
       (fun _ => inr [("EA"%string, [[10; 20; 30]]%float)]) demo_fft2
       "./datasets/1AON_1000/imgdata.mrc"
     = inl (KeyError "t").
Proof.
  split.
  - apply (proj1 (@load_dataset_missing_key
                    (fun _ => demo_stack)
                    (fun _ => inr [("t"%string, [[0.5; 1.5]]%float)])
                    demo_fft2 "./datasets/1AON_1000/imgdata.mrc"
                    [("t"%string, [[0.5; 1.5]]%float)]
                    eq_refl ltac:(discriminate))).
    intros ea. discriminate.
  - apply (proj2 (@load_dataset_missing_key
                    (fun _ => demo_stack)
                    (fun _ => inr [("EA"%string, [[10; 20; 30]]%float)])
                    demo_fft2 "./datasets/1AON_1000/imgdata.mrc"
                    [("EA"%string, [[10; 20; 30]]%float)]
                    eq_refl ltac:(discriminate))
             [[10; 20; 30]]%float eq_refl).
    + discriminate.
    + intros t. discriminate.
Defined.

Lemma load_dataset_short_metadata_witness :
  load_dataset (fun _ => demo_stack)
    (fun _ => inr [("EA"%string, [[10; 20; 30]; [40; 50; 60]]%float);
                   ("t"%string, [[0.5; 1.5]; [2.5; 3.5]; [4.5; 5.5]]%float)])
    demo_fft2 "./datasets/1AON_1000/imgdata.mrc"
  = inl IndexError.
Proof.
  apply (@load_dataset_short_metadata
           (fun _ => demo_stack)
           (fun _ => inr [("EA"%string, [[10; 20; 30]; [40; 50; 60]]%float);
                          ("t"%string,
                           [[0.5; 1.5]; [2.5; 3.5]; [4.5; 5.5]]%float)])
           demo_fft2 "./datasets/1AON_1000/imgdata.mrc"
           [("EA"%string, [[10; 20; 30]; [40; 50; 60]]%float);
            ("t"%string, [[0.5; 1.5]; [2.5; 3.5]; [4.5; 5.5]]%float)]
           [[10; 20; 30]; [40; 50; 60]]%float
           [[0.5; 1.5]; [2.5; 3.5]; [4.5; 5.5]]%float
           eq_refl eq_refl eq_refl).
  left. simpl. lia.
Defined.

End DatasetFacts.

(** * More facts about the training cell *)

Module TrainingMore.
Import ObservationModel Training TrainingFacts.
Local Open Scope R_scope.

Section OptimizerStep.

Variable opt_state : Type.
Variable adam_update
  : Adam opt_state -> tensor -> tensor -> tensor * opt_state.

(** [opt.step()] reads and writes the parameters of its own list only. *)
Lemma step_params_unowned (ps : list pname) (opt : Adam opt_state)
    (s : store) (q : pname) :
  ~ In q ps -> get (snd (step_params adam_update opt ps s)) q = get s q.
Proof.
  revert opt s. induction ps as [| p ps IH]; intros opt s Hq; simpl.
  - reflexivity.
  - assert (Hpq : p <> q) by (intros ->; apply Hq; left; reflexivity).
    assert (Hq' : ~ In q ps) by (intros H; apply Hq; right; exact H).
    destruct (grad (get s p)) as [g |]; [| apply IH; exact Hq'].
    destruct (adam_update opt (value (get s p)) g) as [v os].
    rewrite IH by exact Hq'.
    destruct p, q; simpl; congruence.
Qed.

Lemma zero_grad_unowned (opt : Adam opt_state) (s : store) (q : pname) :
  ~ In q (params opt) -> get (zero_grad opt s) q = get s q.
Proof.
  unfold zero_grad. generalize (params opt) as ps. intros ps. revert s.
  induction ps as [| p ps IH]; intros s Hq; simpl; [reflexivity |].
  assert (Hpq : p <> q) by (intros ->; apply Hq; left; reflexivity).
  rewrite IH by (intros H; apply Hq; right; exact H).
  destruct p, q; simpl; congruence.
Qed.

Lemma optimizer_loop_unowned (opts : list (Adam opt_state)) (k : nat)
    (s : store) (tr : list event) (q : pname) :
  (forall o, In o opts -> ~ In q (params o)) ->
  get (snd (fst (optimizer_loop adam_update k opts s tr))) q = get s q.
Proof.
  revert k s tr. induction opts as [| opt rest IH]; intros k s tr Hq; simpl.
  - reflexivity.
  - unfold step.
    pose proof (step_params_keeps adam_update (params opt) opt s) as [Hp _].
    pose proof (@step_params_unowned (params opt) opt s q
                  (Hq opt (or_introl eq_refl))) as Hs.
    destruct (step_params adam_update opt (params opt) s) as [opt' s1].
    simpl in Hp, Hs.
    specialize (IH (S k) (zero_grad opt' s1) (tr ++ [EvStep k; EvZeroGrad k])
                  (fun o Ho => Hq o (or_intror Ho))).
    destruct (optimizer_loop adam_update (S k) rest (zero_grad opt' s1)
                (tr ++ [EvStep k; EvZeroGrad k])) as [[rest' s3] tr'].
    simpl in *. rewrite IH.
    rewrite zero_grad_unowned by (rewrite Hp; apply Hq; left; reflexivity).
    exact Hs.
Qed.

(** [optimizer_grad_step] on any list of optimizers never fails; it takes
    each optimizer in list order, its step first and the clearing of its
    gradients right after; it hands back as many optimizers, owning the
    same parameters; afterwards no parameter owned by one of them holds a
    gradient; the generators and the running error are not touched. *)
Theorem optimizer_grad_step_any_list (w : world opt_state) :
  exists w',
    optimizer_grad_step adam_update w = (Ok tt, w')
    /\ map (@params opt_state) (optimizer w')
       = map (@params opt_state) (optimizer w)
    /\ trace w'
       = trace w ++ flat_map (fun k => [EvStep k; EvZeroGrad k])
                             (seq 0 (length (optimizer w)))
    /\ (forall q o, In o (optimizer w) -> In q (params o) ->
          grad (get (st w') q) = None)
    /\ torch_gen w' = torch_gen w
    /\ numpy_cursor w' = numpy_cursor w
    /\ error w' = error w.
Proof.
  unfold optimizer_grad_step.
  destruct (optimizer_loop_clears adam_update (optimizer w) 0 (st w) (trace w))
    as [Hp [Ht Hg]].
  destruct (optimizer_loop adam_update 0 (optimizer w) (st w) (trace w))
    as [[opts s] tr].
  simpl in Hp, Ht, Hg.
  eexists. split; [reflexivity |]. simpl.
  split; [exact Hp |]. split; [exact Ht |].
  split; [| repeat split].
  intros q o Ho Hq. apply Hg. right. exists o. split; assumption.
Qed.

(** A parameter that no optimizer of the list owns comes out of
    [optimizer_grad_step] as it went in: its value is not updated and its
    gradient is not cleared. *)
Theorem optimizer_grad_step_unowned (w : world opt_state) (q : pname) :
  (forall o, In o (optimizer w) -> ~ In q (params o)) ->
  get (st (snd (optimizer_grad_step adam_update w))) q = get (st w) q.
Proof.
  intros Hq. unfold optimizer_grad_step.
  pose proof (@optimizer_loop_unowned (optimizer w) 0 (st w) (trace w) q Hq)
    as H.
  destruct (optimizer_loop adam_update 0 (optimizer w) (st w) (trace w))
    as [[opts s] tr].
  exact H.
Qed.

End OptimizerStep.

Lemma optimizer_grad_step_unowned_witness :
  get (st (snd (optimizer_grad_step Notebook.demo_adam_update
                  Samples.one_optimizer_world))) ProteinLogScale
  = get (st Samples.one_optimizer_world) ProteinLogScale.
Proof.
  apply (@optimizer_grad_step_unowned unit Notebook.demo_adam_update
           Samples.one_optimizer_world ProteinLogScale).
  intros o [<- | []]. simpl. intros [H | []]. discriminate.
Defined.

Section Iteration.

Variable opt_state : Type.
Variable adam_update
  : Adam opt_state -> tensor -> tensor -> tensor * opt_state.
Variable gradient : (tensor -> R) -> tensor -> tensor.
Variable softplus : R -> R.
Variable rotmat3D_EA : list Operators.vec3 -> list Operators.mat3.
Variable observation_model
  : tensor -> list Operators.mat3 -> R * R -> list tensor * option Normal.
Variable D : nat.
Variable dataset : list (tensor * Operators.vec3 * (R * R)).
Variable num_pixels : R.
Variable numpy_randint : nat -> nat -> nat * nat.

Local Abbreviation iteration :=
  (training_iteration adam_update gradient softplus rotmat3D_EA
     observation_model D dataset num_pixels numpy_randint).

Local Abbreviation loop :=
  (training_loop adam_update gradient softplus rotmat3D_EA
     observation_model D dataset num_pixels numpy_randint).

Local Abbreviation L :=
  (loss_fn softplus rotmat3D_EA observation_model D num_pixels).

(** On an empty dataset [random.randint(0, 0)] raises ValueError before
    anything else happens: no draw is taken from torch's generator, no
    event occurs, and the state is the one the iteration began with. A loop
    of one or more iterations ends the same way. *)
Theorem training_empty_dataset (n : nat) (w : world opt_state) :
  dataset = [] ->
  iteration w = (Raise ValueError, w)
  /\ loop (S n) w = (Raise ValueError, w).
Proof.
  intros Hd.
  assert (Hit : iteration w = (Raise ValueError, w)).
  { unfold training_iteration. apply bind_raise.
    unfold randint. rewrite Hd. reflexivity. }
  split; [exact Hit |].
  simpl. apply bind_raise. exact Hit.
Qed.

(** A posterior scale with an entry that is not positive, as softplus
    gives once it has underflowed, makes [distributions.Normal] raise
    ValueError at line 251: the index has been drawn from numpy's
    generator, but no sample is drawn from torch's, the model is not
    called, no event occurs and neither parameters, optimizers nor the
    running error change. A loop of one or more iterations ends there. *)
Theorem training_scale_not_positive (n : nat) (w : world opt_state)
    (x : R) :
  dataset <> [] ->
  In x (value (protein_log_scale (st w))) ->
  softplus x <= 0 ->
  let w' :=
    {| st := st w;
       optimizer := optimizer w;
       torch_gen := torch_gen w;
       numpy_cursor := snd (numpy_randint (length dataset) (numpy_cursor w));
       error := error w;
       trace := trace w |} in
  iteration w = (Raise ValueError, w')
  /\ loop (S n) w = (Raise ValueError, w').
Proof.
  intros Hdata Hx Hneg w'.
  assert (Hn : Nat.eqb (length dataset) 0 = false)
    by (destruct dataset; [contradiction | reflexivity]).
  assert (Hcheck : forallb is_positive
                     (map softplus (value (protein_log_scale (st w))))
                   = false).
  { destruct (forallb is_positive
                (map softplus (value (protein_log_scale (st w))))) eqn:E;
      [| reflexivity].
    rewrite forallb_forall in E.
    specialize (E (softplus x) (in_map softplus _ x Hx)).
    unfold is_positive in E.
    destruct (Rlt_dec 0 (softplus x)) as [Hpos | _]; [lra | discriminate]. }
  assert (Hit : iteration w = (Raise ValueError, w')).
  { unfold training_iteration.
    erewrite bind_ok; [| unfold randint; rewrite Hn; reflexivity].
    apply bind_raise.
    unfold protein_dist, Normal_init. cbn [st]. rewrite Hcheck.
    reflexivity. }
  split; [exact Hit |].
  cbn [training_loop]. apply bind_raise. exact Hit.
Qed.

(** When the model hands back [None], the iteration raises AttributeError
    at the loss: the index and the sample have been drawn (torch's
    generator moved on by one draw per voxel, numpy's to where its
    [randint] left it) and the model called, but no gradient is computed,
    no parameter or optimizer changes and nothing is added to the running
    error. The loop stops there: a loop of one or more iterations ends in
    the state of its first. *)
Theorem training_without_distribution (n : nat) (w : world opt_state) :
  dataset <> [] ->
  scale_positive softplus (st w) ->
  returns_none observation_model ->
  exists w',
    iteration w = (Raise AttributeError, w')
    /\ loop (S n) w = (Raise AttributeError, w')
    /\ trace w' = trace w ++ [EvSample; EvObserve]
    /\ st w' = st w
    /\ optimizer w' = optimizer w
    /\ error w' = error w
    /\ tape (torch_gen w') = tape (torch_gen w)
    /\ cursor (torch_gen w')
       = (cursor (torch_gen w) + length (value (protein_loc (st w))))%nat
    /\ numpy_cursor w'
       = snd (numpy_randint (length dataset) (numpy_cursor w)).
Proof.
  intros Hdata Hscale H0.
  pose proof (@training_iteration_without_distribution opt_state adam_update
                gradient softplus rotmat3D_EA observation_model D dataset
                num_pixels numpy_randint w Hdata Hscale H0) as Hit.
  eexists. split; [exact Hit |].
  split; [cbn [training_loop]; apply bind_raise; exact Hit |].
  repeat split.
Qed.

(** What one iteration that gets a distribution object does to the state,
    whatever the two [.grad] slots held when it began: each parameter is
    updated once, by its own optimizer, with the gradient of this
    iteration's loss, taken at the parameters the iteration began with,
    added to what its slot held (the gradient alone for an empty slot);
    both slots are empty afterwards; the draws are the next ones on
    torch's tape, the datum the one numpy's draw picks; the running error
    grows by the loss that was differentiated. *)
Theorem training_iteration_update (w : world opt_state)
    (o1 o2 : Adam opt_state) :
  dataset <> [] ->
  scale_positive softplus (st w) ->
  returns_distribution observation_model ->
  optimizer w = [o1; o2] ->
  params o1 = [ProteinLoc] ->
  params o2 = [ProteinLogScale] ->
  let loc := value (protein_loc (st w)) in
  let log_scale := value (protein_log_scale (st w)) in
  let eps := map (tape (torch_gen w))
                 (seq (cursor (torch_gen w)) (length loc)) in
  let drawn := numpy_randint (length dataset) (numpy_cursor w) in
  let datum := nth (fst drawn mod length dataset)%nat dataset default_datum in
  let g_loc :=
    accumulated (grad (protein_loc (st w)))
                (gradient (fun x => L eps datum x log_scale) loc) in
  let g_log_scale :=
    accumulated (grad (protein_log_scale (st w)))
                (gradient (fun x => L eps datum loc x) log_scale) in
  exists w',
    iteration w = (Ok tt, w')
    /\ value (protein_loc (st w')) = fst (adam_update o1 loc g_loc)
    /\ value (protein_log_scale (st w'))
       = fst (adam_update o2 log_scale g_log_scale)
    /\ grads_cleared (st w')
    /\ map (@state opt_state) (optimizer w')
       = [snd (adam_update o1 loc g_loc);
          snd (adam_update o2 log_scale g_log_scale)]
    /\ error w' = error w + L eps datum loc log_scale
    /\ cursor (torch_gen w') = (cursor (torch_gen w) + length loc)%nat
    /\ numpy_cursor w' = snd drawn.
Proof.
  intros Hdata Hscale Hdist Hopt Ho1 Ho2 loc log_scale eps drawn datum
    g_loc g_log_scale.
  pose proof (@training_iteration_explicit opt_state adam_update gradient
                softplus rotmat3D_EA observation_model D dataset num_pixels
                numpy_randint w o1 o2 Hdata Hscale Hopt Ho1 Ho2
                (observe_distribution _ _ _ _ Hdist)) as Hrun.
  eexists. split; [exact Hrun |].
  cbn [st optimizer torch_gen numpy_cursor error trace protein_loc
       protein_log_scale value grad map state randn snd cursor].
  repeat split.
Qed.

End Iteration.

Lemma training_empty_dataset_witness :
  training_iteration Notebook.demo_adam_update Notebook.demo_gradient
    Notebook.exact_softplus
    (Operators.rotmat3D_EA (Operators.AxisZ, Operators.AxisY, Operators.AxisZ))
    (Notebook.call_model Notebook.demo_projector (Notebook.demo_model 1))
    1 [] 1 Notebook.demo_randint Notebook.demo_world
  = (Raise ValueError, Notebook.demo_world).
Proof.
  exact (proj1 (@training_empty_dataset unit Notebook.demo_adam_update
                  Notebook.demo_gradient Notebook.exact_softplus
                  (Operators.rotmat3D_EA
                     (Operators.AxisZ, Operators.AxisY, Operators.AxisZ))
                  (Notebook.call_model Notebook.demo_projector
                     (Notebook.demo_model 1))
                  1%nat [] 1 Notebook.demo_randint 0%nat Notebook.demo_world
                  eq_refl)).
Defined.

Lemma training_scale_not_positive_witness :
  fst (training_iteration Notebook.demo_adam_update Notebook.demo_gradient
         Notebook.flushed_softplus
         (Operators.rotmat3D_EA
            (Operators.AxisZ, Operators.AxisY, Operators.AxisZ))
         (Notebook.call_model Notebook.demo_projector (Notebook.demo_model 1))
         1 Notebook.demo_dataset 1 Notebook.demo_randint
         Samples.underflow_world)
  = Raise ValueError.
Proof.
  rewrite (proj1 (@training_scale_not_positive unit Notebook.demo_adam_update
                    Notebook.demo_gradient Notebook.flushed_softplus
                    (Operators.rotmat3D_EA
                       (Operators.AxisZ, Operators.AxisY, Operators.AxisZ))
                    (Notebook.call_model Notebook.demo_projector
                       (Notebook.demo_model 1))
                    1%nat Notebook.demo_dataset 1 Notebook.demo_randint
                    0%nat Samples.underflow_world (-200)
                    ltac:(discriminate)
                    ltac:(left; reflexivity)
                    ltac:(unfold Notebook.flushed_softplus;
                          destruct (Rle_dec (-200) (-104)); lra))).
  reflexivity.
Defined.

Lemma training_without_distribution_witness :
  exists w',
    training_iteration Notebook.demo_adam_update Notebook.demo_gradient
      Notebook.exact_softplus
      (Operators.rotmat3D_EA (Operators.AxisZ, Operators.AxisY, Operators.AxisZ))
      (Notebook.call_model Notebook.demo_projector (Notebook.demo_model 0))
      1 Notebook.demo_dataset 1 Notebook.demo_randint Notebook.demo_world
    = (Raise AttributeError, w')
    /\ st w' = st Notebook.demo_world.
Proof.
  destruct (@training_without_distribution unit Notebook.demo_adam_update
              Notebook.demo_gradient Notebook.exact_softplus
              (Operators.rotmat3D_EA
                 (Operators.AxisZ, Operators.AxisY, Operators.AxisZ))
              (Notebook.call_model Notebook.demo_projector
                 (Notebook.demo_model 0))
              1%nat Notebook.demo_dataset 1 Notebook.demo_randint 0%nat
              Notebook.demo_world
              ltac:(discriminate)
              ltac:(apply exact_softplus_scale_positive)
              ltac:(apply call_model_none; reflexivity))
    as [w' [Hrun [_ [_ [Hst _]]]]].
  exists w'. split; [exact Hrun | exact Hst].
Defined.

Lemma training_iteration_update_witness :
  exists w',
    training_iteration Notebook.demo_adam_update Notebook.demo_gradient
      Notebook.exact_softplus
      (Operators.rotmat3D_EA (Operators.AxisZ, Operators.AxisY, Operators.AxisZ))
      (Notebook.call_model Notebook.demo_projector (Notebook.demo_model 1))
      1 Notebook.demo_dataset 1 Notebook.demo_randint Samples.pending_world
    = (Ok tt, w')
    /\ value (protein_loc (st w')) = [0 - (2 + 1)]
    /\ value (protein_log_scale (st w')) = [-100 - 1].
Proof.
  destruct (@training_iteration_update unit Notebook.demo_adam_update
              Notebook.demo_gradient Notebook.exact_softplus
              (Operators.rotmat3D_EA
                 (Operators.AxisZ, Operators.AxisY, Operators.AxisZ))
              (Notebook.call_model Notebook.demo_projector
                 (Notebook.demo_model 1))
              1%nat Notebook.demo_dataset 1 Notebook.demo_randint
              Samples.pending_world _ _
              ltac:(discriminate)
              ltac:(apply exact_softplus_scale_positive)
              ltac:(apply call_model_distribution; simpl; lra)
              eq_refl eq_refl eq_refl)
    as [w' [Hrun [Hloc [Hls _]]]].
  exists w'. split; [exact Hrun |].
  split; [rewrite Hloc | rewrite Hls]; reflexivity.
Defined.

Lemma tsum_log_density (sigma : R) (mean obs : tensor) :
  length mean = length obs ->
  tsum (map2 (fun mu x => normal_log_density mu sigma x) mean obs)
  = - (tsum (map2 (fun mu x => (x - mu) ^ 2) mean obs) / (2 * sigma ^ 2))
    - INR (length obs) * (ln sigma + ln (sqrt (2 * PI))).
Proof.
  revert obs. induction mean as [| mu mean IH]; intros [| x obs] Hlen;
    try discriminate.
  - simpl. unfold Rdiv. ring.
  - injection Hlen as Hlen.
    change (length (x :: obs)) with (S (length obs)). rewrite S_INR.
    unfold tsum in *. cbn [map2 fold_right]. rewrite (IH obs Hlen).
    unfold normal_log_density, Rdiv. ring.
Qed.

Lemma tsum_squares_nonneg (mean obs : tensor) :
  0 <= tsum (map2 (fun mu x => (x - mu) ^ 2) mean obs).
Proof.
  revert obs. induction mean as [| mu mean IH]; intros [| x obs];
    unfold tsum; cbn [map2 fold_right]; try lra.
  specialize (IH obs). unfold tsum in IH.
  pose proof (pow2_ge_0 (x - mu)). lra.
Qed.

Lemma tsum_squares_self (mean : tensor) :
  tsum (map2 (fun mu x => (x - mu) ^ 2) mean mean) = 0.
Proof.
  induction mean as [| mu mean IH]; unfold tsum in *; cbn [map2 fold_right];
    [reflexivity |].
  rewrite IH. ring.
Qed.

(** The loss of lines 259 and 260 for one projection: the squared residuals
    summed over every coefficient and divided by [2 sigma^2], plus
    [log sigma + log sqrt(2 pi)] once per coefficient, all divided by
    [num_pixels]. For positive [sigma] and [num_pixels] it is least when
    the observation equals the projection. *)
Theorem loss_value_squared_error (num_pixels sigma : R) (mean obs : tensor) :
  0 < sigma -> 0 < num_pixels -> length mean = length obs ->
  loss_value num_pixels (Some {| loc := [mean]; scale := sigma |}) obs
  = Ok ((tsum (map2 (fun mu x => (x - mu) ^ 2) mean obs) / (2 * sigma ^ 2)
         + INR (length obs) * (ln sigma + ln (sqrt (2 * PI))))
        / num_pixels)
  /\ exists l0 l,
       loss_value num_pixels (Some {| loc := [mean]; scale := sigma |}) mean
       = Ok l0
       /\ loss_value num_pixels (Some {| loc := [mean]; scale := sigma |}) obs
          = Ok l
       /\ l0 <= l.
Proof.
  intros Hs Hn Hlen.
  assert (Hform : forall o, length mean = length o ->
            loss_value num_pixels (Some {| loc := [mean]; scale := sigma |}) o
            = Ok ((tsum (map2 (fun mu x => (x - mu) ^ 2) mean o)
                   / (2 * sigma ^ 2)
                   + INR (length o) * (ln sigma + ln (sqrt (2 * PI))))
                  / num_pixels)).
  { intros o Ho. unfold loss_value, call_log_prob, log_prob, tsum2, rbind.
    cbn [map loc scale]. apply f_equal.
    rewrite (tsum_log_density sigma _ _ Ho).
    unfold tsum at 1. cbn [fold_right]. unfold Rdiv. ring. }
  split; [exact (Hform obs Hlen) |].
  do 2 eexists. split; [exact (Hform mean eq_refl) |].
  split; [exact (Hform obs Hlen) |].
  rewrite tsum_squares_self, <- Hlen.
  pose proof (tsum_squares_nonneg mean obs) as Hsq.
  assert (Hd : 0 < 2 * sigma ^ 2) by nra.
  apply Rmult_le_compat_r; [left; apply Rinv_0_lt_compat; exact Hn |].
  apply Rplus_le_compat_r.
  unfold Rdiv. rewrite Rmult_0_l.
  apply Rmult_le_pos; [exact Hsq | left; apply Rinv_0_lt_compat; exact Hd].
Qed.

Lemma loss_value_squared_error_witness :
  loss_value 2 (Some {| loc := [[1; 2]]; scale := 1 |}) [3; 5]
  = Ok ((tsum (map2 (fun mu x => (x - mu) ^ 2) [1; 2] [3; 5]) / (2 * 1 ^ 2)
         + INR 2 * (ln 1 + ln (sqrt (2 * PI))))
        / 2).
Proof.
  exact (proj1 (@loss_value_squared_error 2 1 [1; 2] [3; 5]
                  ltac:(lra) ltac:(lra) eq_refl)).
Defined.

End TrainingMore.
